(** * pulumi-rollback: a shallow embedding of the rollback engine

    The Go packages [history], [rollback] and [cmd] are embedded as Rocq
    modules of the same names.  The external deployment backend (the Pulumi
    automation API behind the [RollbackStack] and [Stack] interfaces) is a
    record of handlers over an arbitrary world type [W]; every call through
    an interface, and every write to an output sink, is logged so that the
    order and number of backend calls can be stated.  The [context.Context]
    argument of the Go functions carries no data the code reads and is left
    out. *)

From Stdlib Require Import ZArith String List Sorted Lia DecimalString.
From stdpp Require Import gmap strings.

Local Open Scope Z_scope.

(** ** The parts of the Go runtime and standard library the code relies on *)

Module golang.

(** Go's [error] values.  [errors.New] and [fmt.Errorf] without a [%w] verb
    build an [errorString]; [fmt.Errorf] with [%w] builds a [wrapError] that
    keeps the fully formatted message and the wrapped error. *)
Inductive error : Type :=
| errorString (s : string)
| wrapError (msg : string) (err : error).

Definition Error (e : error) : string :=
  match e with
  | errorString s => s
  | wrapError msg _ => msg
  end.

Definition Unwrap (e : error) : option error :=
  match e with
  | errorString _ => None
  | wrapError _ err => Some err
  end.


(** A Go call returning [(T, error)]: the value is only looked at when the
    error is nil, so the pair is a sum. *)
Inductive result (A : Type) : Type :=
| Ok (a : A)
| Err (e : error).
Arguments Ok {A} a.
Arguments Err {A} e.

Definition is_Ok {A} (r : result A) : bool :=
  match r with Ok _ => true | Err _ => false end.

(** The error of a call, nil when it succeeded. *)
Definition error_of {A} (r : result A) : option error :=
  match r with Ok _ => None | Err e => Some e end.

(** [%d] of an [int]; no arithmetic is done on the integers of this
    program, only comparisons, so they are plain [Z]. *)
Definition itoa (z : Z) : string := NilZero.string_of_int (Z.to_int z).

(** [fmt.Errorf(prefix + "%w", err)]. *)
(** The line feed of the format strings. *)
Definition LF : string := String (Ascii.ascii_of_nat 10) EmptyString.

Definition Errorf_w (prefix : string) (err : error) : error :=
  wrapError (prefix +:+ Error err) err.





(** Go's [map[string]int]; a possibly nil map or a pointer to a map is an
    [option] of it. *)
Abbreviation gomap := (gmap string Z).

(** [for k, v := range src { dst[k] = v }] *)
Definition copy_into (src dst : gomap) : gomap :=
  map_fold (fun k v acc => <[k := v]> acc) dst src.

(** *** The types of the automation API that cross the interfaces *)

(** [apitype.UntypedDeployment]; [Deployment] is a [json.RawMessage]. *)
Record UntypedDeployment : Type := {
  ud_Version : Z;
  ud_Deployment : string
}.

(** The zero value [apitype.UntypedDeployment{}]. *)
Definition UntypedDeployment_zero : UntypedDeployment :=
  {| ud_Version := 0; ud_Deployment := EmptyString |}.

(** [auto.UpdateSummary], the fields the code reads. *)
Record UpdateSummary : Type := {
  us_Version : Z;
  us_Kind : string;
  us_StartTime : string;
  us_Message : string;
  us_Result : string;
  us_EndTime : option string;
  us_ResourceChanges : option gomap
}.

Definition UpdateSummary_zero : UpdateSummary :=
  {| us_Version := 0; us_Kind := EmptyString; us_StartTime := EmptyString;
     us_Message := EmptyString; us_Result := EmptyString; us_EndTime := None;
     us_ResourceChanges := None |}.

(** [auto.PreviewResult]; [ChangeSummary] is a [map[apitype.OpType]int] that
    may be nil, [apitype.OpType] being a string type. *)
Record PreviewResult : Type := {
  pr_StdOut : string;
  pr_StdErr : string;
  pr_ChangeSummary : option gomap
}.

Record RefreshResult : Type := {
  rr_StdOut : string;
  rr_StdErr : string;
  rr_Summary : UpdateSummary
}.

Record UpResult : Type := {
  ur_StdOut : string;
  ur_StdErr : string;
  ur_Summary : UpdateSummary
}.

(** [optpreview.Option], [optrefresh.Option], [optup.Option]: the code only
    builds [Message] options, [opt_Message] here. *)
Inductive Option : Type :=
| opt_Message (s : string).

(** *** Output sinks *)

Inductive Writer : Type :=
| os_Stdout
| UserWriter (id : nat).

(** *** The log of externally visible actions *)

Inductive Event : Type :=
| CallSelectStack (stackName projectPath : string) (err : option error)
| CallExport (res : result UntypedDeployment)
| CallImport (state : UntypedDeployment) (err : option error)
| CallHistory (pageSize page : Z) (res : result (list UpdateSummary))
| CallPreview (opts : list Option) (res : result PreviewResult)
| CallRefresh (opts : list Option) (res : result RefreshResult)
| CallUp (opts : list Option) (res : result UpResult)
| ReadStdin (res : result string)
| Fprintf (w : Writer) (s : string).

(** The calls that replace the committed state or touch infrastructure. *)
Definition mutating (e : Event) : bool :=
  match e with
  | CallImport _ _ | CallRefresh _ _ | CallUp _ _ => true
  | _ => false
  end.

Definition is_Import (e : Event) : bool :=
  match e with CallImport _ _ => true | _ => false end.

(** The reads of the [RollbackStack] interface. *)
Definition read_only (e : Event) : bool :=
  match e with
  | CallHistory _ _ _ | CallExport _ => true
  | _ => false
  end.

(** The [Import] calls of a log, each with the state passed and the error
    returned, and the results of its [Export] calls. *)
Fixpoint imports (tr : list Event) : list (UntypedDeployment * option error) :=
  match tr with
  | [] => []
  | CallImport state err :: tr' => (state, err) :: imports tr'
  | _ :: tr' => imports tr'
  end.

Fixpoint exports (tr : list Event) : list (result UntypedDeployment) :=
  match tr with
  | [] => []
  | CallExport res :: tr' => res :: exports tr'
  | _ :: tr' => exports tr'
  end.

Definition Writer_eqb (a b : Writer) : bool :=
  match a, b with
  | os_Stdout, os_Stdout => true
  | UserWriter i, UserWriter j => Nat.eqb i j
  | _, _ => false
  end.

(** The text written to sink [w], in order. *)
Fixpoint written (w : Writer) (tr : list Event) : string :=
  match tr with
  | [] => EmptyString
  | Fprintf w' s :: tr' =>
      if Writer_eqb w w' then s +:+ written w tr' else written w tr'
  | _ :: tr' => written w tr'
  end.

(** *** The monad of the embedding

    A computation takes the world and returns its value, the world it
    leaves and the log of what it did. *)

Record Run (W A : Type) : Type := {
  outcome : A;
  final : W;
  calls : list Event
}.
Arguments outcome {W A} r.
Arguments final {W A} r.
Arguments calls {W A} r.

Definition M (W A : Type) : Type := W -> Run W A.

Definition ret {W A} (a : A) : M W A :=
  fun w => {| outcome := a; final := w; calls := [] |}.

Definition bind {W A B} (m : M W A) (k : A -> M W B) : M W B :=
  fun w =>
    let r1 := m w in
    let r2 := k (outcome r1) (final r1) in
    {| outcome := outcome r2; final := final r2; calls := calls r1 ++ calls r2 |}.

(** Runs a handler of the backend on the world. *)
Definition call {W A} (h : W -> A * W) : M W A :=
  fun w => {| outcome := fst (h w); final := snd (h w); calls := [] |}.

Definition emit {W} (e : Event) : M W unit :=
  fun w => {| outcome := tt; final := w; calls := [e] |}.

(** [fmt.Fprintf(w, ...)] with the formatted text; its result is dropped by
    every caller. *)
Definition fmt_Fprintf {W} (w : Writer) (s : string) : M W unit :=
  emit (Fprintf w s).

(** [wp m w Q]: the run of [m] from [w] ends with a value, a world and a
    log that satisfy [Q]. *)
Definition wp {W A} (m : M W A) (w : W) (Q : A -> W -> list Event -> Prop) : Prop :=
  Q (outcome (m w)) (final (m w)) (calls (m w)).

Declare Scope go_scope.
Delimit Scope go_scope with go.
Notation "x <- c1 ;; c2" := (bind c1 (fun x => c2))
  (at level 100, c1 at next level, right associativity) : go_scope.
Notation "c1 ;; c2" := (bind c1 (fun _ => c2))
  (at level 100, right associativity) : go_scope.

End golang.

(** ** Package [history] *)

Module history.
Import golang.
Local Open Scope go_scope.

Section History.

(** The world behind the interfaces, and [time.Time] with the parser
    [time.Parse(time.RFC3339, _)] of the standard library. *)
Context {W : Type} {Time : Type}.
Variable Time_zero : Time.
Variable time_Parse_RFC3339 : string -> result Time.

(** [type Stack interface] *)
Record Stack : Type := {
  History : Z -> Z -> W -> result (list UpdateSummary) * W
}.

(** [type StackSelector interface] *)
Record StackSelector : Type := {
  SelectStack : string -> string -> W -> result Stack * W
}.

(** [type UpdateInfo struct] *)
Record UpdateInfo : Type := {
  Version : Z;
  Kind : string;
  StartTime : Time;
  EndTime : Time;
  Result : string;
  Message : string;
  ResourceChanges : gomap
}.

Definition selectStack (selector : StackSelector) (stackName projectPath : string)
  : M W (result Stack) :=
  r <- call (SelectStack selector stackName projectPath) ;;
  emit (CallSelectStack stackName projectPath (error_of r)) ;;
  ret r.

Definition stackHistory (stack : Stack) (pageSize page : Z)
  : M W (result (list UpdateSummary)) :=
  r <- call (History stack pageSize page) ;;
  emit (CallHistory pageSize page r) ;;
  ret r.

(** The body of the loop of [ConvertUpdates]. *)
Definition convertUpdate (update : UpdateSummary) : UpdateInfo :=
  let StartTime :=
    if String.eqb (us_StartTime update) EmptyString then Time_zero
    else match time_Parse_RFC3339 (us_StartTime update) with
         | Ok t => t
         | Err _ => Time_zero
         end in
  let EndTime :=
    match us_EndTime update with
    | None => Time_zero
    | Some s =>
        if String.eqb s EmptyString then Time_zero
        else match time_Parse_RFC3339 s with
             | Ok t => t
             | Err _ => Time_zero
             end
    end in
  let ResourceChanges :=
    match us_ResourceChanges update with
    | None => ∅
    | Some m => copy_into m ∅
    end in
  {| Version := us_Version update;
     Kind := us_Kind update;
     StartTime := StartTime;
     EndTime := EndTime;
     Result := us_Result update;
     Message := us_Message update;
     ResourceChanges := ResourceChanges |}.

(** [ConvertUpdates]: one [UpdateInfo] appended per summary, in order. *)
Definition ConvertUpdates (history : list UpdateSummary) : list UpdateInfo :=
  fold_left (fun updates update => updates ++ [convertUpdate update]) history [].

Definition GetStackHistoryWithSelector (projectPath stackName : string)
  (selector : StackSelector) : M W (result (list UpdateInfo)) :=
  r <- selectStack selector stackName projectPath ;;
  match r with
  | Err err =>
      ret (Err (Errorf_w ("failed to select stack " +:+ stackName +:+ ": ") err))
  | Ok stack =>
      r <- stackHistory stack 0 0 ;;
      match r with
      | Err err => ret (Err (Errorf_w "failed to get stack history: " err))
      | Ok history => ret (Ok (ConvertUpdates history))
      end
  end.

(** [FindUpdateByVersion]: the first record whose version matches. *)
Fixpoint FindUpdateByVersion (history : list UpdateInfo) (version : Z)
  : result UpdateInfo :=
  match history with
  | [] => Err (errorString
                 ("version " +:+ itoa version +:+ " not found in stack history"))
  | update :: rest =>
      if Version update =? version then Ok update
      else FindUpdateByVersion rest version
  end.

Definition GetUpdateByVersionWithSelector (projectPath stackName : string)
  (version : Z) (selector : StackSelector) : M W (result UpdateInfo) :=
  r <- GetStackHistoryWithSelector projectPath stackName selector ;;
  match r with
  | Err err => ret (Err err)
  | Ok history => ret (FindUpdateByVersion history version)
  end.

(** [GetLatestVersionFromHistory] *)
Definition GetLatestVersionFromHistory (history : list UpdateInfo)
  (stackName : string) : result Z :=
  match history with
  | [] => Err (errorString ("no deployment history found for stack " +:+ stackName))
  | first :: _ => Ok (Version first)
  end.

Definition GetLatestVersionWithSelector (projectPath stackName : string)
  (selector : StackSelector) : M W (result Z) :=
  r <- GetStackHistoryWithSelector projectPath stackName selector ;;
  match r with
  | Err err => ret (Err err)
  | Ok history => ret (GetLatestVersionFromHistory history stackName)
  end.

(** [DefaultSelector] is the adapter to the real automation API. *)
Variable DefaultSelector : StackSelector.

Definition GetStackHistory (projectPath stackName : string) :=
  GetStackHistoryWithSelector projectPath stackName DefaultSelector.

Definition GetUpdateByVersion (projectPath stackName : string) (version : Z) :=
  GetUpdateByVersionWithSelector projectPath stackName version DefaultSelector.

Definition GetLatestVersion (projectPath stackName : string) :=
  GetLatestVersionWithSelector projectPath stackName DefaultSelector.

End History.

Arguments Stack : clear implicits.
Arguments StackSelector : clear implicits.
Arguments UpdateInfo : clear implicits.

End history.

(** ** Package [rollback] *)

Module rollback.
Import golang.
Local Open Scope go_scope.

Section Rollback.

Context {W : Type}.

(** [json.Unmarshal(data, &state)] with [state] a [map[string]interface{}]:
    nil when [data] is a JSON object. *)
Variable json_Unmarshal_object : string -> option error.

(** [type RollbackStack interface] *)
Record RollbackStack : Type := {
  Export : W -> result UntypedDeployment * W;
  Import : UntypedDeployment -> W -> option error * W;
  History : Z -> Z -> W -> result (list UpdateSummary) * W;
  Preview : list Option -> W -> result PreviewResult * W;
  Refresh : list Option -> W -> result RefreshResult * W;
  Up : list Option -> W -> result UpResult * W
}.

(** [type StackOperator interface] *)
Record StackOperator : Type := {
  SelectStack : string -> string -> W -> result RollbackStack * W
}.

(** [DefaultOperator], the adapter to the real automation API. *)
Variable DefaultOperator : StackOperator.

(** [type RollbackOptions struct] *)
Record RollbackOptions : Type := {
  ProjectPath : string;
  StackName : string;
  TargetVersion : Z;
  DryRun : bool;
  Verbose : bool;
  Output : option Writer;
  Operator : option StackOperator
}.

(** [type RollbackResult struct] *)
Record RollbackResult : Type := {
  Success : bool;
  Message : string;
  ResourceChanges : gomap;
  Stdout : string;
  Stderr : string
}.

(** *** Calls through the interfaces, logged *)

Definition selectStack (operator : StackOperator) (stackName projectPath : string)
  : M W (result RollbackStack) :=
  r <- call (SelectStack operator stackName projectPath) ;;
  emit (CallSelectStack stackName projectPath (error_of r)) ;;
  ret r.

Definition stackExport (stack : RollbackStack) : M W (result UntypedDeployment) :=
  r <- call (Export stack) ;;
  emit (CallExport r) ;;
  ret r.

Definition stackImport (stack : RollbackStack) (state : UntypedDeployment)
  : M W (option error) :=
  err <- call (Import stack state) ;;
  emit (CallImport state err) ;;
  ret err.

Definition stackHistory (stack : RollbackStack) (pageSize page : Z)
  : M W (result (list UpdateSummary)) :=
  r <- call (History stack pageSize page) ;;
  emit (CallHistory pageSize page r) ;;
  ret r.

Definition stackPreview (stack : RollbackStack) (opts : list Option)
  : M W (result PreviewResult) :=
  r <- call (Preview stack opts) ;;
  emit (CallPreview opts r) ;;
  ret r.

Definition stackRefresh (stack : RollbackStack) (opts : list Option)
  : M W (result RefreshResult) :=
  r <- call (Refresh stack opts) ;;
  emit (CallRefresh opts r) ;;
  ret r.

Definition stackUp (stack : RollbackStack) (opts : list Option)
  : M W (result UpResult) :=
  r <- call (Up stack opts) ;;
  emit (CallUp opts r) ;;
  ret r.

(** *** The pure helpers *)

(** [VersionExistsInHistory] *)
Fixpoint VersionExistsInHistory (history : list UpdateSummary) (version : Z) : bool :=
  match history with
  | [] => false
  | update :: rest =>
      if us_Version update =? version then true
      else VersionExistsInHistory rest version
  end.

(** [ValidateDeployment] *)
Definition ValidateDeployment (deployment : UntypedDeployment) : option error :=
  json_Unmarshal_object (ud_Deployment deployment).

(** [convertOpTypeChangeSummary] *)
Definition convertOpTypeChangeSummary (summary : option gomap) : gomap :=
  match summary with
  | None => ∅
  | Some summary => copy_into summary ∅
  end.

(** *** [GetCheckpointForVersion] *)

Definition GetCheckpointForVersion (stack : RollbackStack) (version : Z)
  : M W (result UntypedDeployment) :=
  r <- stackHistory stack 0 0 ;;
  match r with
  | Err err => ret (Err (Errorf_w "failed to get history: " err))
  | Ok history =>
      if negb (VersionExistsInHistory history version) then
        ret (Err (errorString
                    ("version " +:+ itoa version +:+ " not found in history")))
      else
        r <- stackExport stack ;;
        match r with
        | Err err => ret (Err (Errorf_w "failed to export deployment: " err))
        | Ok deployment =>
            match ValidateDeployment deployment with
            | Some err => ret (Err (Errorf_w "failed to parse deployment: " err))
            | None => ret (Ok deployment)
            end
        end
  end.

(** *** [PreviewRollback] *)

Definition outputOf (opts : RollbackOptions) : Writer :=
  match Output opts with
  | None => os_Stdout
  | Some w => w
  end.

Definition operatorOf (opts : RollbackOptions) : StackOperator :=
  match Operator opts with
  | None => DefaultOperator
  | Some operator => operator
  end.

Definition PreviewRollback (opts : RollbackOptions) : M W (result RollbackResult) :=
  r <- selectStack (operatorOf opts) (StackName opts) (ProjectPath opts) ;;
  match r with
  | Err err => ret (Err (Errorf_w "failed to select stack: " err))
  | Ok stack =>
  r <- stackExport stack ;;
  match r with
  | Err err => ret (Err (Errorf_w "failed to export current state: " err))
  | Ok currentState =>
  r <- GetCheckpointForVersion stack (TargetVersion opts) ;;
  match r with
  | Err err =>
      ret (Err (Errorf_w ("failed to get checkpoint for version "
                          +:+ itoa (TargetVersion opts) +:+ ": ") err))
  | Ok targetCheckpoint =>
  err <- stackImport stack targetCheckpoint ;;
  match err with
  | Some err => ret (Err (Errorf_w "failed to import target state: " err))
  | None =>
  let previewOpts :=
    [opt_Message ("Preview rollback to version " +:+ itoa (TargetVersion opts))] in
  r <- stackPreview stack previewOpts ;;
  restoreErr <- stackImport stack currentState ;;
  (match restoreErr with
   | Some restoreErr =>
       fmt_Fprintf (outputOf opts)
         ("Warning: failed to restore current state: " +:+ Error restoreErr +:+ LF)
   | None => ret tt
   end) ;;
  match r with
  | Err err => ret (Err (Errorf_w "preview failed: " err))
  | Ok result =>
      ret (Ok {| Success := true;
                 Message := "Preview of rollback to version "
                            +:+ itoa (TargetVersion opts) +:+ " completed";
                 ResourceChanges :=
                   convertOpTypeChangeSummary (pr_ChangeSummary result);
                 Stdout := pr_StdOut result;
                 Stderr := pr_StdErr result |})
  end end end end end.

(** *** [ExecuteRollback] *)

Definition ExecuteRollback (opts : RollbackOptions) : M W (result RollbackResult) :=
  r <- selectStack (operatorOf opts) (StackName opts) (ProjectPath opts) ;;
  match r with
  | Err err => ret (Err (Errorf_w "failed to select stack: " err))
  | Ok stack =>
  r <- GetCheckpointForVersion stack (TargetVersion opts) ;;
  match r with
  | Err err =>
      ret (Err (Errorf_w ("failed to get checkpoint for version "
                          +:+ itoa (TargetVersion opts) +:+ ": ") err))
  | Ok targetCheckpoint =>
  err <- stackImport stack targetCheckpoint ;;
  match err with
  | Some err => ret (Err (Errorf_w "failed to import target state: " err))
  | None =>
  fmt_Fprintf (outputOf opts)
    ("Refreshing stack to reconcile with target state..." +:+ LF) ;;
  r <- stackRefresh stack [] ;;
  match r with
  | Err err => ret (Err (Errorf_w "refresh failed: " err))
  | Ok _ =>
  fmt_Fprintf (outputOf opts) ("Applying rollback changes..." +:+ LF) ;;
  let upOpts :=
    [opt_Message ("Rollback to version " +:+ itoa (TargetVersion opts))] in
  r <- stackUp stack upOpts ;;
  match r with
  | Err err => ret (Err (Errorf_w "rollback failed: " err))
  | Ok result =>
      let changes :=
        match us_ResourceChanges (ur_Summary result) with
        | Some m => copy_into m ∅
        | None => ∅
        end in
      ret (Ok {| Success := true;
                 Message := "Successfully rolled back to version "
                            +:+ itoa (TargetVersion opts);
                 ResourceChanges := changes;
                 Stdout := ur_StdOut result;
                 Stderr := ur_StdErr result |})
  end end end end end.

(** *** The paths through the flows

    Every run of [GetCheckpointForVersion], [PreviewRollback] and
    [ExecuteRollback] follows one of the paths below: the value returned
    and the log it leaves. *)

Inductive checkpoint_path (version : Z)
  : result UntypedDeployment -> list Event -> Prop :=
| CP_history_failed e :
    checkpoint_path version
      (Err (Errorf_w "failed to get history: " e))
      [CallHistory 0 0 (Err e)]
| CP_not_found h :
    VersionExistsInHistory h version = false ->
    checkpoint_path version
      (Err (errorString ("version " +:+ itoa version +:+ " not found in history")))
      [CallHistory 0 0 (Ok h)]
| CP_export_failed h e :
    VersionExistsInHistory h version = true ->
    checkpoint_path version
      (Err (Errorf_w "failed to export deployment: " e))
      [CallHistory 0 0 (Ok h); CallExport (Err e)]
| CP_parse_failed h d e :
    VersionExistsInHistory h version = true ->
    ValidateDeployment d = Some e ->
    checkpoint_path version
      (Err (Errorf_w "failed to parse deployment: " e))
      [CallHistory 0 0 (Ok h); CallExport (Ok d)]
| CP_found h d :
    VersionExistsInHistory h version = true ->
    ValidateDeployment d = None ->
    checkpoint_path version (Ok d) [CallHistory 0 0 (Ok h); CallExport (Ok d)].

Definition selected (opts : RollbackOptions) (err : option error) : Event :=
  CallSelectStack (StackName opts) (ProjectPath opts) err.

Definition checkpoint_error (opts : RollbackOptions) (e : error) : error :=
  Errorf_w ("failed to get checkpoint for version "
            +:+ itoa (TargetVersion opts) +:+ ": ") e.

Definition previewOpts (opts : RollbackOptions) : list Option :=
  [opt_Message ("Preview rollback to version " +:+ itoa (TargetVersion opts))].

Definition upOpts (opts : RollbackOptions) : list Option :=
  [opt_Message ("Rollback to version " +:+ itoa (TargetVersion opts))].

(** What [PreviewRollback] writes when the restoring [Import] returns [err]. *)
Definition restore_warning (opts : RollbackOptions) (err : option error) : list Event :=
  match err with
  | Some e =>
      [Fprintf (outputOf opts)
         ("Warning: failed to restore current state: " +:+ Error e +:+ LF)]
  | None => []
  end.

(** What [PreviewRollback] returns once the restore was attempted. *)
Definition preview_outcome (opts : RollbackOptions) (r : result PreviewResult)
  : result RollbackResult :=
  match r with
  | Err e => Err (Errorf_w "preview failed: " e)
  | Ok result =>
      Ok {| Success := true;
            Message := "Preview of rollback to version "
                       +:+ itoa (TargetVersion opts) +:+ " completed";
            ResourceChanges := convertOpTypeChangeSummary (pr_ChangeSummary result);
            Stdout := pr_StdOut result;
            Stderr := pr_StdErr result |}
  end.

Inductive preview_path (opts : RollbackOptions)
  : result RollbackResult -> list Event -> Prop :=
| PP_select_failed e :
    preview_path opts
      (Err (Errorf_w "failed to select stack: " e))
      [selected opts (Some e)]
| PP_export_failed e :
    preview_path opts
      (Err (Errorf_w "failed to export current state: " e))
      [selected opts None; CallExport (Err e)]
| PP_checkpoint_failed cur e tr :
    checkpoint_path (TargetVersion opts) (Err e) tr ->
    preview_path opts
      (Err (checkpoint_error opts e))
      (selected opts None :: CallExport (Ok cur) :: tr)
| PP_import_failed cur tgt tr e :
    checkpoint_path (TargetVersion opts) (Ok tgt) tr ->
    preview_path opts
      (Err (Errorf_w "failed to import target state: " e))
      (selected opts None :: CallExport (Ok cur) :: tr
       ++ [CallImport tgt (Some e)])
| PP_previewed cur tgt tr r restoreErr :
    checkpoint_path (TargetVersion opts) (Ok tgt) tr ->
    preview_path opts
      (preview_outcome opts r)
      (selected opts None :: CallExport (Ok cur) :: tr
       ++ [CallImport tgt None; CallPreview (previewOpts opts) r;
           CallImport cur restoreErr]
       ++ restore_warning opts restoreErr).

Definition refreshing (opts : RollbackOptions) : Event :=
  Fprintf (outputOf opts) ("Refreshing stack to reconcile with target state..." +:+ LF).

Definition applying (opts : RollbackOptions) : Event :=
  Fprintf (outputOf opts) ("Applying rollback changes..." +:+ LF).

Definition execute_outcome (opts : RollbackOptions) (result : UpResult)
  : RollbackResult :=
  {| Success := true;
     Message := "Successfully rolled back to version " +:+ itoa (TargetVersion opts);
     ResourceChanges :=
       match us_ResourceChanges (ur_Summary result) with
       | Some m => copy_into m ∅
       | None => ∅
       end;
     Stdout := ur_StdOut result;
     Stderr := ur_StdErr result |}.

Inductive execute_path (opts : RollbackOptions)
  : result RollbackResult -> list Event -> Prop :=
| EP_select_failed e :
    execute_path opts
      (Err (Errorf_w "failed to select stack: " e))
      [selected opts (Some e)]
| EP_checkpoint_failed e tr :
    checkpoint_path (TargetVersion opts) (Err e) tr ->
    execute_path opts
      (Err (checkpoint_error opts e))
      (selected opts None :: tr)
| EP_import_failed tgt tr e :
    checkpoint_path (TargetVersion opts) (Ok tgt) tr ->
    execute_path opts
      (Err (Errorf_w "failed to import target state: " e))
      (selected opts None :: tr ++ [CallImport tgt (Some e)])
| EP_refresh_failed tgt tr e :
    checkpoint_path (TargetVersion opts) (Ok tgt) tr ->
    execute_path opts
      (Err (Errorf_w "refresh failed: " e))
      (selected opts None :: tr
       ++ [CallImport tgt None; refreshing opts; CallRefresh [] (Err e)])
| EP_up_failed tgt tr rr e :
    checkpoint_path (TargetVersion opts) (Ok tgt) tr ->
    execute_path opts
      (Err (Errorf_w "rollback failed: " e))
      (selected opts None :: tr
       ++ [CallImport tgt None; refreshing opts; CallRefresh [] (Ok rr);
           applying opts; CallUp (upOpts opts) (Err e)])
| EP_applied tgt tr rr result :
    checkpoint_path (TargetVersion opts) (Ok tgt) tr ->
    execute_path opts
      (Ok (execute_outcome opts result))
      (selected opts None :: tr
       ++ [CallImport tgt None; refreshing opts; CallRefresh [] (Ok rr);
           applying opts; CallUp (upOpts opts) (Ok result)]).


End Rollback.

Arguments RollbackStack : clear implicits.
Arguments StackOperator : clear implicits.
Arguments RollbackOptions : clear implicits.

End rollback.

(** ** The steps of the two flows on the backend

    Each call a flow makes through the interfaces, as a function of the
    options and of the world [w] the flow starts from: the handler of the
    selected stack applied to the world the step before it left.  The runs
    of a flow are then given by what these calls return, one run per
    return statement of the Go function. *)

Module steps.
Import golang rollback.

Section Steps.

Context {W : Type}.
Variable json_Unmarshal_object : string -> option error.
Variable DefaultOperator : StackOperator W.
Variable opts : RollbackOptions W.
Variable w : W.

(** *** [PreviewRollback] *)

(** [operator.SelectStack(ctx, opts.StackName, opts.ProjectPath)] *)
Definition the_selection : result (RollbackStack W) * W :=
  SelectStack (operatorOf DefaultOperator opts) (StackName opts) (ProjectPath opts) w.

(** [currentState, err := stack.Export(ctx)] *)
Definition the_export (stack : RollbackStack W) : result UntypedDeployment * W :=
  Export stack (snd the_selection).

(** [targetCheckpoint, err := GetCheckpointForVersion(ctx, stack, opts.TargetVersion)] *)
Definition the_checkpoint (stack : RollbackStack W) : Run W (result UntypedDeployment) :=
  GetCheckpointForVersion json_Unmarshal_object stack (TargetVersion opts)
    (snd (the_export stack)).

(** [stack.Import(ctx, targetCheckpoint)] *)
Definition the_target_import (stack : RollbackStack W) (targetCheckpoint : UntypedDeployment)
  : option error * W :=
  Import stack targetCheckpoint (final (the_checkpoint stack)).

(** [result, err := stack.Preview(ctx, previewOpts...)] *)
Definition the_preview (stack : RollbackStack W) (targetCheckpoint : UntypedDeployment)
  : result PreviewResult * W :=
  Preview stack (previewOpts opts) (snd (the_target_import stack targetCheckpoint)).

(** [restoreErr := stack.Import(ctx, currentState)] *)
Definition the_restore (stack : RollbackStack W)
  (currentState targetCheckpoint : UntypedDeployment) : option error * W :=
  Import stack currentState (snd (the_preview stack targetCheckpoint)).

(** The flow reached the import of the target checkpoint and the backend
    accepted it. *)
Definition target_imported (stack : RollbackStack W)
  (currentState targetCheckpoint : UntypedDeployment) : Prop :=
  fst the_selection = Ok stack
  /\ fst (the_export stack) = Ok currentState
  /\ outcome (the_checkpoint stack) = Ok targetCheckpoint
  /\ fst (the_target_import stack targetCheckpoint) = None.

(** The runs of [PreviewRollback] from [w], one per return statement. *)
Inductive preview_run : Run W (result RollbackResult) -> Prop :=
| PR_select_failed e :
    fst the_selection = Err e ->
    preview_run
      {| outcome := Err (Errorf_w "failed to select stack: " e);
         final := snd the_selection;
         calls := [selected opts (Some e)] |}
| PR_export_failed stack e :
    fst the_selection = Ok stack ->
    fst (the_export stack) = Err e ->
    preview_run
      {| outcome := Err (Errorf_w "failed to export current state: " e);
         final := snd (the_export stack);
         calls := [selected opts None; CallExport (Err e)] |}
| PR_checkpoint_failed stack cur e :
    fst the_selection = Ok stack ->
    fst (the_export stack) = Ok cur ->
    outcome (the_checkpoint stack) = Err e ->
    preview_run
      {| outcome := Err (checkpoint_error opts e);
         final := final (the_checkpoint stack);
         calls := selected opts None :: CallExport (Ok cur)
                  :: calls (the_checkpoint stack) |}
| PR_import_failed stack cur tgt e :
    fst the_selection = Ok stack ->
    fst (the_export stack) = Ok cur ->
    outcome (the_checkpoint stack) = Ok tgt ->
    fst (the_target_import stack tgt) = Some e ->
    preview_run
      {| outcome := Err (Errorf_w "failed to import target state: " e);
         final := snd (the_target_import stack tgt);
         calls := selected opts None :: CallExport (Ok cur)
                  :: calls (the_checkpoint stack)
                  ++ [CallImport tgt (Some e)] |}
| PR_previewed stack cur tgt :
    target_imported stack cur tgt ->
    preview_run
      {| outcome := preview_outcome opts (fst (the_preview stack tgt));
         final := snd (the_restore stack cur tgt);
         calls := selected opts None :: CallExport (Ok cur)
                  :: calls (the_checkpoint stack)
                  ++ [CallImport tgt None;
                      CallPreview (previewOpts opts) (fst (the_preview stack tgt));
                      CallImport cur (fst (the_restore stack cur tgt))]
                  ++ restore_warning opts (fst (the_restore stack cur tgt)) |}.

(** *** [ExecuteRollback] *)

(** [targetCheckpoint, err := GetCheckpointForVersion(ctx, stack, opts.TargetVersion)] *)
Definition the_retrieval (stack : RollbackStack W) : Run W (result UntypedDeployment) :=
  GetCheckpointForVersion json_Unmarshal_object stack (TargetVersion opts)
    (snd the_selection).

(** [stack.Import(ctx, targetCheckpoint)] *)
Definition the_import (stack : RollbackStack W) (targetCheckpoint : UntypedDeployment)
  : option error * W :=
  Import stack targetCheckpoint (final (the_retrieval stack)).

(** [stack.Refresh(ctx)] *)
Definition the_refresh (stack : RollbackStack W) (targetCheckpoint : UntypedDeployment)
  : result RefreshResult * W :=
  Refresh stack [] (snd (the_import stack targetCheckpoint)).

(** [result, err := stack.Up(ctx, upOpts...)] *)
Definition the_up (stack : RollbackStack W) (targetCheckpoint : UntypedDeployment)
  : result UpResult * W :=
  Up stack (upOpts opts) (snd (the_refresh stack targetCheckpoint)).

(** The runs of [ExecuteRollback] from [w], one per return statement. *)
Inductive execute_run : Run W (result RollbackResult) -> Prop :=
| ER_select_failed e :
    fst the_selection = Err e ->
    execute_run
      {| outcome := Err (Errorf_w "failed to select stack: " e);
         final := snd the_selection;
         calls := [selected opts (Some e)] |}
| ER_checkpoint_failed stack e :
    fst the_selection = Ok stack ->
    outcome (the_retrieval stack) = Err e ->
    execute_run
      {| outcome := Err (checkpoint_error opts e);
         final := final (the_retrieval stack);
         calls := selected opts None :: calls (the_retrieval stack) |}
| ER_import_failed stack tgt e :
    fst the_selection = Ok stack ->
    outcome (the_retrieval stack) = Ok tgt ->
    fst (the_import stack tgt) = Some e ->
    execute_run
      {| outcome := Err (Errorf_w "failed to import target state: " e);
         final := snd (the_import stack tgt);
         calls := selected opts None :: calls (the_retrieval stack)
                  ++ [CallImport tgt (Some e)] |}
| ER_refresh_failed stack tgt e :
    fst the_selection = Ok stack ->
    outcome (the_retrieval stack) = Ok tgt ->
    fst (the_import stack tgt) = None ->
    fst (the_refresh stack tgt) = Err e ->
    execute_run
      {| outcome := Err (Errorf_w "refresh failed: " e);
         final := snd (the_refresh stack tgt);
         calls := selected opts None :: calls (the_retrieval stack)
                  ++ [CallImport tgt None; refreshing opts; CallRefresh [] (Err e)] |}
| ER_up_failed stack tgt refreshed e :
    fst the_selection = Ok stack ->
    outcome (the_retrieval stack) = Ok tgt ->
    fst (the_import stack tgt) = None ->
    fst (the_refresh stack tgt) = Ok refreshed ->
    fst (the_up stack tgt) = Err e ->
    execute_run
      {| outcome := Err (Errorf_w "rollback failed: " e);
         final := snd (the_up stack tgt);
         calls := selected opts None :: calls (the_retrieval stack)
                  ++ [CallImport tgt None; refreshing opts;
                      CallRefresh [] (Ok refreshed);
                      applying opts; CallUp (upOpts opts) (Err e)] |}
| ER_applied stack tgt refreshed result :
    fst the_selection = Ok stack ->
    outcome (the_retrieval stack) = Ok tgt ->
    fst (the_import stack tgt) = None ->
    fst (the_refresh stack tgt) = Ok refreshed ->
    fst (the_up stack tgt) = Ok result ->
    execute_run
      {| outcome := Ok (execute_outcome opts result);
         final := snd (the_up stack tgt);
         calls := selected opts None :: calls (the_retrieval stack)
                  ++ [CallImport tgt None; refreshing opts;
                      CallRefresh [] (Ok refreshed);
                      applying opts; CallUp (upOpts opts) (Ok result)] |}.

End Steps.

End steps.

(** ** Package [cmd]: the commands [to] and [preview] *)

Module cmd.
Import golang.
Local Open Scope go_scope.

Section Cmd.

Context {W : Type} {Time : Type}.

(** The standard library and the adapters to the real backend. *)
Variable Time_zero : Time.
Variable time_Parse_RFC3339 : string -> result Time.
Variable Time_IsZero : Time -> bool.
Variable Time_Format : Time -> string -> string.
Variable os_Getenv : string -> string.
Variable strings_TrimSpace : string -> string.
Variable strings_ToLower : string -> string.
Variable stdin_ReadString : W -> result string * W.
Variable json_Unmarshal_object : string -> option error.
Variable DefaultSelector : history.StackSelector W.
Variable DefaultOperator : rollback.StackOperator W.

(** The package-level variables set from the command line. *)
Record Flags : Type := {
  stackName : string;
  projectPath : string;
  verbose : bool;
  rollbackVersion : Z;
  skipConfirm : bool;
  previewVersion : Z
}.

Variable flags : Flags.

Definition getStackName : result string :=
  if negb (String.eqb (stackName flags) EmptyString) then Ok (stackName flags)
  else
    let envStack := os_Getenv "PULUMI_STACK" in
    if negb (String.eqb envStack EmptyString) then Ok envStack
    else Err (errorString
      "stack name is required: use --stack flag or set PULUMI_STACK environment variable").

Definition getProjectPath : string := projectPath flags.

Definition isVerbose : bool := verbose flags.

(** [formatTime] *)
Definition formatTime (t : Time) : string :=
  if Time_IsZero t then "N/A" else Time_Format t "2006-01-02 15:04".

(** [fmt.Print], [fmt.Printf] and [fmt.Println] with the formatted text. *)
Definition fmt_Print (s : string) : M W unit := fmt_Fprintf os_Stdout s.

Definition readResponse : M W (result string) :=
  r <- call stdin_ReadString ;;
  emit (ReadStdin r) ;;
  ret r.

(** The lines of [for change, count := range changes]; Go leaves the order
    of a map range open, the order of [map_to_list] stands for it. *)
Definition printChanges (changes : gomap) : M W unit :=
  fold_right
    (fun '(change, count) rest =>
       fmt_Print ("  " +:+ change +:+ ": " +:+ itoa count +:+ LF) ;; rest)
    (ret tt) (map_to_list changes).

Definition printUpdate (update : history.UpdateInfo Time) : M W unit :=
  fmt_Print ("  Kind: " +:+ history.Kind update +:+ LF) ;;
  fmt_Print ("  Result: " +:+ history.Result update +:+ LF) ;;
  fmt_Print ("  Time: " +:+ formatTime (history.StartTime update) +:+ LF) ;;
  (if negb (String.eqb (history.Message update) EmptyString)
   then fmt_Print ("  Message: " +:+ history.Message update +:+ LF)
   else ret tt) ;;
  fmt_Print LF.

(** [runRollback], the command [to]. *)
Definition runRollback : M W (option error) :=
  match getStackName with
  | Err err => ret (Some err)
  | Ok stack =>
  let projectPath := getProjectPath in
  r <- history.GetUpdateByVersion Time_zero time_Parse_RFC3339 DefaultSelector
         projectPath stack (rollbackVersion flags) ;;
  match r with
  | Err err =>
      ret (Some (Errorf_w ("failed to find version "
                           +:+ itoa (rollbackVersion flags) +:+ ": ") err))
  | Ok update =>
  r <- history.GetLatestVersion Time_zero time_Parse_RFC3339 DefaultSelector
         projectPath stack ;;
  match r with
  | Err err => ret (Some (Errorf_w "failed to get latest version: " err))
  | Ok latest =>
  if rollbackVersion flags =? latest then
    fmt_Print ("Version " +:+ itoa (rollbackVersion flags)
               +:+ " is the current version. No rollback needed." +:+ LF) ;;
    ret None
  else
  fmt_Print ("Rolling back stack '" +:+ stack +:+ "' to version "
             +:+ itoa (rollbackVersion flags) +:+ LF) ;;
  printUpdate update ;;
  fmt_Print ("⚠️  WARNING: This will modify your infrastructure!" +:+ LF) ;;
  fmt_Print ("   Current version: " +:+ itoa latest +:+ LF) ;;
  fmt_Print ("   Target version:  " +:+ itoa (rollbackVersion flags) +:+ LF) ;;
  fmt_Print LF ;;
  let proceed : M W (option error) :=
    fmt_Print (LF +:+ "Starting rollback..." +:+ LF) ;;
    let opts :=
      {| rollback.ProjectPath := projectPath;
         rollback.StackName := stack;
         rollback.TargetVersion := rollbackVersion flags;
         rollback.DryRun := false;
         rollback.Verbose := isVerbose;
         rollback.Output := Some os_Stdout;
         rollback.Operator := None |} in
    r <- rollback.ExecuteRollback json_Unmarshal_object DefaultOperator opts ;;
    match r with
    | Err err => ret (Some (Errorf_w "rollback failed: " err))
    | Ok result =>
        fmt_Print (LF +:+ "✓ " +:+ rollback.Message result +:+ LF) ;;
        (if bool_decide (rollback.ResourceChanges result = ∅) then ret tt
         else
           fmt_Print (LF +:+ "Resource changes applied:" +:+ LF) ;;
           printChanges (rollback.ResourceChanges result)) ;;
        ret None
    end in
  if negb (skipConfirm flags) then
    fmt_Print "Do you want to proceed? [y/N]: " ;;
    r <- readResponse ;;
    match r with
    | Err err => ret (Some (Errorf_w "failed to read response: " err))
    | Ok response =>
        let response := strings_TrimSpace (strings_ToLower response) in
        if negb (String.eqb response "y") && negb (String.eqb response "yes") then
          fmt_Print ("Rollback cancelled." +:+ LF) ;;
          ret None
        else proceed
    end
  else proceed
  end end end.

(** [runPreview], the command [preview]. *)
Definition runPreview : M W (option error) :=
  match getStackName with
  | Err err => ret (Some err)
  | Ok stack =>
  let projectPath := getProjectPath in
  r <- history.GetUpdateByVersion Time_zero time_Parse_RFC3339 DefaultSelector
         projectPath stack (previewVersion flags) ;;
  match r with
  | Err err =>
      ret (Some (Errorf_w ("failed to find version "
                           +:+ itoa (previewVersion flags) +:+ ": ") err))
  | Ok update =>
  r <- history.GetLatestVersion Time_zero time_Parse_RFC3339 DefaultSelector
         projectPath stack ;;
  match r with
  | Err err => ret (Some (Errorf_w "failed to get latest version: " err))
  | Ok latest =>
  if previewVersion flags =? latest then
    fmt_Print ("Warning: Version " +:+ itoa (previewVersion flags)
               +:+ " is the current version. No rollback needed." +:+ LF) ;;
    ret None
  else
  fmt_Print ("Previewing rollback to version "
             +:+ itoa (previewVersion flags) +:+ "..." +:+ LF) ;;
  printUpdate update ;;
  let opts :=
    {| rollback.ProjectPath := projectPath;
       rollback.StackName := stack;
       rollback.TargetVersion := previewVersion flags;
       rollback.DryRun := true;
       rollback.Verbose := isVerbose;
       rollback.Output := Some os_Stdout;
       rollback.Operator := None |} in
  r <- rollback.PreviewRollback json_Unmarshal_object DefaultOperator opts ;;
  match r with
  | Err err => ret (Some (Errorf_w "preview failed: " err))
  | Ok result =>
      fmt_Print (LF +:+ rollback.Message result +:+ LF) ;;
      (if bool_decide (rollback.ResourceChanges result = ∅) then ret tt
       else
         fmt_Print (LF +:+ "Resource changes:" +:+ LF) ;;
         printChanges (rollback.ResourceChanges result)) ;;
      fmt_Print (LF +:+ "To execute this rollback, run:" +:+ LF) ;;
      fmt_Print ("  pulumi-rollback to --stack " +:+ stack +:+ " --version "
                 +:+ itoa (previewVersion flags) +:+ LF) ;;
      ret None
  end end end end.

End Cmd.

End cmd.

(** ** Test doubles

    [MockRollbackStack] and [MockStackOperator] of [rollback_test.go] and
    [MockStack] and [MockStackSelector] of [history_test.go]: each method
    runs the function it was given, or a default.  The world of a mock is
    what its closures capture. *)

Module mock.
Import golang.

Definition DQ : string := String (Ascii.ascii_of_nat 34) EmptyString.

(** A JSON object with one numeric member. *)
Definition object1 (key : string) (value : Z) : string :=
  "{" +:+ DQ +:+ key +:+ DQ +:+ ":" +:+ itoa value +:+ "}".

(** [encoding/json] on the documents the doubles hold: the objects listed
    parse, anything else (the malformed [{invalid}] of the tests, the empty
    document) is refused. *)
Definition json_Unmarshal_object (data : string) : option error :=
  if existsb (String.eqb data)
       ["{}"; object1 "resources" 1; object1 "resources" 2]
  then None
  else Some (errorString "invalid character 'i' looking for beginning of object key string").

Section Mock.

Context {W : Type}.

Record MockRollbackStack : Type := {
  ExportFunc : option (W -> result UntypedDeployment * W);
  ImportFunc : option (UntypedDeployment -> W -> option error * W);
  HistoryFunc : option (Z -> Z -> W -> result (list UpdateSummary) * W);
  PreviewFunc : option (list Option -> W -> result PreviewResult * W);
  RefreshFunc : option (list Option -> W -> result RefreshResult * W);
  UpFunc : option (list Option -> W -> result UpResult * W)
}.

Definition version (v : Z) : UpdateSummary :=
  {| us_Version := v; us_Kind := EmptyString; us_StartTime := EmptyString;
     us_Message := EmptyString; us_Result := EmptyString; us_EndTime := None;
     us_ResourceChanges := None |}.

Definition document (data : string) : UntypedDeployment :=
  {| ud_Version := 0; ud_Deployment := data |}.

Definition RollbackStack_of (m : MockRollbackStack) : rollback.RollbackStack W :=
  {| rollback.Export :=
       match ExportFunc m with
       | Some f => f
       | None => fun w => (Ok (document "{}"), w)
       end;
     rollback.Import :=
       match ImportFunc m with
       | Some f => f
       | None => fun _ w => (None, w)
       end;
     rollback.History :=
       match HistoryFunc m with
       | Some f => f
       | None => fun _ _ w => (Ok [version 1], w)
       end;
     rollback.Preview :=
       match PreviewFunc m with
       | Some f => f
       | None => fun _ w =>
           (Ok {| pr_StdOut := EmptyString; pr_StdErr := EmptyString;
                  pr_ChangeSummary := None |}, w)
       end;
     rollback.Refresh :=
       match RefreshFunc m with
       | Some f => f
       | None => fun _ w =>
           (Ok {| rr_StdOut := EmptyString; rr_StdErr := EmptyString;
                  rr_Summary := UpdateSummary_zero |}, w)
       end;
     rollback.Up :=
       match UpFunc m with
       | Some f => f
       | None => fun _ w =>
           (Ok {| ur_StdOut := EmptyString; ur_StdErr := EmptyString;
                  ur_Summary := UpdateSummary_zero |}, w)
       end |}.

(** A mock with no function set. *)
Definition MockRollbackStack_zero : MockRollbackStack :=
  {| ExportFunc := None; ImportFunc := None; HistoryFunc := None;
     PreviewFunc := None; RefreshFunc := None; UpFunc := None |}.

(** [MockStackOperator] whose [SelectStackFunc] returns [stack]. *)
Definition operator_returning (stack : MockRollbackStack) : rollback.StackOperator W :=
  {| rollback.SelectStack := fun _ _ w => (Ok (RollbackStack_of stack), w) |}.


(** [MockStackSelector] over a [MockStack] returning [history]. *)
Definition selector_returning (history : list UpdateSummary) : history.StackSelector W :=
  {| history.SelectStack := fun _ _ w =>
       (Ok {| history.History := fun _ _ w => (Ok history, w) |}, w) |}.

Definition options (target : Z) (operator : rollback.StackOperator W)
  : rollback.RollbackOptions W :=
  {| rollback.ProjectPath := EmptyString;
     rollback.StackName := "test";
     rollback.TargetVersion := target;
     rollback.DryRun := false;
     rollback.Verbose := false;
     rollback.Output := Some (UserWriter 0);
     rollback.Operator := Some operator |}.

End Mock.

Arguments MockRollbackStack : clear implicits.

(** The mocks of the tests; the world is the captured [importCount]. *)

(** [importCount++; return nil] *)
Definition counting_import : UntypedDeployment -> nat -> option error * nat :=
  fun _ importCount => (None, S importCount).

(** [importCount++; if importCount == 2 { return err }; return nil] *)
Definition failing_second_import (err : error)
  : UntypedDeployment -> nat -> option error * nat :=
  fun _ importCount =>
    let importCount := S importCount in
    (if Nat.eqb importCount 2 then Some err else None, importCount).

(** The preview result of [TestPreviewRollback_Success]. *)
Definition one_create : PreviewResult :=
  {| pr_StdOut := "preview output"; pr_StdErr := EmptyString;
     pr_ChangeSummary := Some {[ "create" := 1 ]} |}.

(** [TestPreviewRollback_RestoreError], with the change summary of
    [TestPreviewRollback_Success]. *)
Definition restore_error_stack : MockRollbackStack nat :=
  {| ExportFunc := Some (fun w => (Ok (document "{}"), w));
     ImportFunc := Some (failing_second_import (errorString "restore failed"));
     HistoryFunc := Some (fun _ _ w => (Ok [version 1], w));
     PreviewFunc := Some (fun _ w => (Ok one_create, w));
     RefreshFunc := None; UpFunc := None |}.

(** [TestPreviewRollback_PreviewError] *)
Definition preview_error_stack : MockRollbackStack nat :=
  {| ExportFunc := Some (fun w => (Ok (document "{}"), w));
     ImportFunc := Some counting_import;
     HistoryFunc := Some (fun _ _ w => (Ok [version 1], w));
     PreviewFunc := Some (fun _ w => (Err (errorString "preview failed"), w));
     RefreshFunc := None; UpFunc := None |}.


Definition up_error_stack : MockRollbackStack nat :=
  {| ExportFunc := Some (fun w => (Ok (document "{}"), w));
     ImportFunc := None;
     HistoryFunc := Some (fun _ _ w => (Ok [version 1], w));
     PreviewFunc := None; RefreshFunc := None;
     UpFunc := Some (fun _ w => (Err (errorString "up failed"), w)) |}.




(** *** An in-memory backend that keeps the checkpoint of every deployment

    The committed state and, most recent first, the record of every
    deployment with the checkpoint stored for it. *)
Record Backend : Type := {
  committed : UntypedDeployment;
  deployments : list (UpdateSummary * UntypedDeployment)
}.

(** The checkpoint stored for [version]. *)
Fixpoint checkpoint_of (deployments : list (UpdateSummary * UntypedDeployment))
  (version : Z) : option UntypedDeployment :=
  match deployments with
  | [] => None
  | (update, checkpoint) :: rest =>
      if us_Version update =? version then Some checkpoint
      else checkpoint_of rest version
  end.

Definition memory_stack : rollback.RollbackStack Backend :=
  {| rollback.Export := fun w => (Ok (committed w), w);
     rollback.Import := fun state w =>
       (None, {| committed := state; deployments := deployments w |});
     rollback.History := fun _ _ w => (Ok (map fst (deployments w)), w);
     rollback.Preview := fun _ w =>
       (Ok {| pr_StdOut := EmptyString; pr_StdErr := EmptyString;
              pr_ChangeSummary := None |}, w);
     rollback.Refresh := fun _ w =>
       (Ok {| rr_StdOut := EmptyString; rr_StdErr := EmptyString;
              rr_Summary := UpdateSummary_zero |}, w);
     rollback.Up := fun _ w =>
       (Ok {| ur_StdOut := EmptyString; ur_StdErr := EmptyString;
              ur_Summary := UpdateSummary_zero |}, w) |}.

(** A stack deployed twice: version 1 with one resource, then version 2,
    the committed state, with two. *)
Definition two_deployments : Backend :=
  {| committed := document (object1 "resources" 2);
     deployments :=
       [ (version 2, document (object1 "resources" 2));
         (version 1, document (object1 "resources" 1)) ] |}.

(** *** The runs used as examples *)

Definition default_operator : rollback.StackOperator nat :=
  operator_returning MockRollbackStack_zero.

Definition preview (target : Z) (stack : MockRollbackStack nat)
  : Run nat (result rollback.RollbackResult) :=
  rollback.PreviewRollback json_Unmarshal_object default_operator
    (options target (operator_returning stack)) 0%nat.

Definition execute (target : Z) (stack : MockRollbackStack nat)
  : Run nat (result rollback.RollbackResult) :=
  rollback.ExecuteRollback json_Unmarshal_object default_operator
    (options target (operator_returning stack)) 0%nat.


(** The command [to --stack dev --version 5 --yes] on a stack whose history
    is, most recent first, versions 5, 2 and 1.  Times are kept as the
    strings of the backend; nothing is typed on the standard input. *)
Definition flags_to (stack : string) (version : Z) : cmd.Flags :=
  {| cmd.stackName := stack; cmd.projectPath := "."; cmd.verbose := false;
     cmd.rollbackVersion := version; cmd.skipConfirm := true;
     cmd.previewVersion := 0 |}.

Definition stdin_closed : nat -> result string * nat :=
  fun w => (Err (errorString "EOF"), w).

Definition history_5_2_1 : history.StackSelector nat :=
  selector_returning [version 5; version 2; version 1].

Definition runRollback_on (selector : history.StackSelector nat) (flags : cmd.Flags)
  : Run nat (option error) :=
  cmd.runRollback EmptyString (fun s => Ok s)
    (fun t => String.eqb t EmptyString) (fun t _ => t)
    (fun _ => EmptyString) (fun s => s) (fun s => s)
    stdin_closed json_Unmarshal_object selector default_operator flags 0%nat.

End mock.

(** ** The automation API, and the adapters to it

    [auto.Stack] with the methods the code calls, and the adapters of
    [pkg/history/interfaces.go] and [pkg/rollback/interfaces.go] that put it
    behind the interfaces. *)

Module auto.
Import golang.

Section Auto.

Context {W : Type}.

Record Stack : Type := {
  Export : W -> result UntypedDeployment * W;
  Import : UntypedDeployment -> W -> option error * W;
  History : Z -> Z -> W -> result (list UpdateSummary) * W;
  Preview : list Option -> W -> result PreviewResult * W;
  Refresh : list Option -> W -> result RefreshResult * W;
  Up : list Option -> W -> result UpResult * W
}.

End Auto.

Arguments Stack : clear implicits.

End auto.

Module adapters.
Import golang.

Section Adapters.

Context {W : Type}.

(** [auto.SelectStackLocalSource(ctx, stackName, workDir)] *)
Variable auto_SelectStackLocalSource :
  string -> string -> W -> result (auto.Stack W) * W.

(** [RealStack] of package [history] *)
Definition RealStack (stack : auto.Stack W) : history.Stack W :=
  {| history.History := auto.History stack |}.

(** [DefaultStackSelector.SelectStack] *)
Definition DefaultStackSelector : history.StackSelector W :=
  {| history.SelectStack := fun stackName projectPath w =>
       (match fst (auto_SelectStackLocalSource stackName projectPath w) with
        | Err err => Err err
        | Ok stack => Ok (RealStack stack)
        end,
        snd (auto_SelectStackLocalSource stackName projectPath w)) |}.

(** [RealRollbackStack] of package [rollback] *)
Definition RealRollbackStack (stack : auto.Stack W) : rollback.RollbackStack W :=
  {| rollback.Export := auto.Export stack;
     rollback.Import := auto.Import stack;
     rollback.History := auto.History stack;
     rollback.Preview := auto.Preview stack;
     rollback.Refresh := auto.Refresh stack;
     rollback.Up := auto.Up stack |}.

(** [DefaultStackOperator.SelectStack] *)
Definition DefaultStackOperator : rollback.StackOperator W :=
  {| rollback.SelectStack := fun stackName projectPath w =>
       (match fst (auto_SelectStackLocalSource stackName projectPath w) with
        | Err err => Err err
        | Ok stack => Ok (RealRollbackStack stack)
        end,
        snd (auto_SelectStackLocalSource stackName projectPath w)) |}.

End Adapters.

End adapters.

(** ** Package [history] before the interfaces ([pkg/history/history.go])

    The functions call the automation API directly and carry their loops
    inline. *)

Module history_2024.
Import golang.
Local Open Scope go_scope.

Section History.

Context {W : Type} {Time : Type}.
Variable Time_zero : Time.
Variable time_Parse_RFC3339 : string -> result Time.
Variable auto_SelectStackLocalSource :
  string -> string -> W -> result (auto.Stack W) * W.

Definition selectStackLocalSource (stackName projectPath : string)
  : M W (result (auto.Stack W)) :=
  r <- call (auto_SelectStackLocalSource stackName projectPath) ;;
  emit (CallSelectStack stackName projectPath (error_of r)) ;;
  ret r.

Definition stackHistory (stack : auto.Stack W) (pageSize page : Z)
  : M W (result (list UpdateSummary)) :=
  r <- call (auto.History stack pageSize page) ;;
  emit (CallHistory pageSize page r) ;;
  ret r.

(** [GetStackHistory]; the body of its loop is that of [ConvertUpdates]. *)
Definition GetStackHistory (projectPath stackName : string)
  : M W (result (list (history.UpdateInfo Time))) :=
  r <- selectStackLocalSource stackName projectPath ;;
  match r with
  | Err err =>
      ret (Err (Errorf_w ("failed to select stack " +:+ stackName +:+ ": ") err))
  | Ok stack =>
      r <- stackHistory stack 0 0 ;;
      match r with
      | Err err => ret (Err (Errorf_w "failed to get stack history: " err))
      | Ok history =>
          ret (Ok (fold_left
                     (fun updates update =>
                        updates ++ [history.convertUpdate Time_zero
                                      time_Parse_RFC3339 update])
                     history []))
      end
  end.

(** The loop of [GetUpdateByVersion]. *)
Fixpoint findUpdate (history : list (history.UpdateInfo Time)) (version : Z)
  : result (history.UpdateInfo Time) :=
  match history with
  | [] => Err (errorString
                 ("version " +:+ itoa version +:+ " not found in stack history"))
  | update :: rest =>
      if history.Version update =? version then Ok update
      else findUpdate rest version
  end.

Definition GetUpdateByVersion (projectPath stackName : string) (version : Z)
  : M W (result (history.UpdateInfo Time)) :=
  r <- GetStackHistory projectPath stackName ;;
  match r with
  | Err err => ret (Err err)
  | Ok history => ret (findUpdate history version)
  end.

Definition GetLatestVersion (projectPath stackName : string) : M W (result Z) :=
  r <- GetStackHistory projectPath stackName ;;
  match r with
  | Err err => ret (Err err)
  | Ok history =>
      match history with
      | [] => ret (Err (errorString
                          ("no deployment history found for stack " +:+ stackName)))
      | first :: _ => ret (Ok (history.Version first))
      end
  end.

End History.

End history_2024.

(** ** Package [rollback] before the interfaces (the second [rollback.go]) *)

Module rollback_2024.
Import golang.
Local Open Scope go_scope.

Section Rollback.

Context {W : Type}.
Variable json_Unmarshal_object : string -> option error.
Variable auto_SelectStackLocalSource :
  string -> string -> W -> result (auto.Stack W) * W.

(** [type RollbackOptions struct], without the operator. *)
Record RollbackOptions : Type := {
  ProjectPath : string;
  StackName : string;
  TargetVersion : Z;
  DryRun : bool;
  Verbose : bool;
  Output : option Writer
}.

Definition selectStackLocalSource (stackName projectPath : string)
  : M W (result (auto.Stack W)) :=
  r <- call (auto_SelectStackLocalSource stackName projectPath) ;;
  emit (CallSelectStack stackName projectPath (error_of r)) ;;
  ret r.

Definition stackExport (stack : auto.Stack W) : M W (result UntypedDeployment) :=
  r <- call (auto.Export stack) ;;
  emit (CallExport r) ;;
  ret r.

Definition stackImport (stack : auto.Stack W) (state : UntypedDeployment)
  : M W (option error) :=
  err <- call (auto.Import stack state) ;;
  emit (CallImport state err) ;;
  ret err.

Definition stackHistory (stack : auto.Stack W) (pageSize page : Z)
  : M W (result (list UpdateSummary)) :=
  r <- call (auto.History stack pageSize page) ;;
  emit (CallHistory pageSize page r) ;;
  ret r.

Definition stackPreview (stack : auto.Stack W) (opts : list Option)
  : M W (result PreviewResult) :=
  r <- call (auto.Preview stack opts) ;;
  emit (CallPreview opts r) ;;
  ret r.

Definition stackRefresh (stack : auto.Stack W) (opts : list Option)
  : M W (result RefreshResult) :=
  r <- call (auto.Refresh stack opts) ;;
  emit (CallRefresh opts r) ;;
  ret r.

Definition stackUp (stack : auto.Stack W) (opts : list Option)
  : M W (result UpResult) :=
  r <- call (auto.Up stack opts) ;;
  emit (CallUp opts r) ;;
  ret r.

(** The loop of [getCheckpointForVersion]: [found] after it. *)
Fixpoint found (history : list UpdateSummary) (version : Z) : bool :=
  match history with
  | [] => false
  | update :: rest =>
      if us_Version update =? version then true else found rest version
  end.

Definition getCheckpointForVersion (stack : auto.Stack W) (version : Z)
  : M W (result UntypedDeployment) :=
  r <- stackHistory stack 0 0 ;;
  match r with
  | Err err => ret (Err (Errorf_w "failed to get history: " err))
  | Ok history =>
      if negb (found history version) then
        ret (Err (errorString
                    ("version " +:+ itoa version +:+ " not found in history")))
      else
        r <- stackExport stack ;;
        match r with
        | Err err => ret (Err (Errorf_w "failed to export deployment: " err))
        | Ok deployment =>
            match json_Unmarshal_object (ud_Deployment deployment) with
            | Some err => ret (Err (Errorf_w "failed to parse deployment: " err))
            | None => ret (Ok deployment)
            end
        end
  end.

Definition outputOf (opts : RollbackOptions) : Writer :=
  match Output opts with
  | None => os_Stdout
  | Some w => w
  end.

Definition PreviewRollback (opts : RollbackOptions)
  : M W (result rollback.RollbackResult) :=
  r <- selectStackLocalSource (StackName opts) (ProjectPath opts) ;;
  match r with
  | Err err => ret (Err (Errorf_w "failed to select stack: " err))
  | Ok stack =>
  r <- stackExport stack ;;
  match r with
  | Err err => ret (Err (Errorf_w "failed to export current state: " err))
  | Ok currentState =>
  r <- getCheckpointForVersion stack (TargetVersion opts) ;;
  match r with
  | Err err =>
      ret (Err (Errorf_w ("failed to get checkpoint for version "
                          +:+ itoa (TargetVersion opts) +:+ ": ") err))
  | Ok targetCheckpoint =>
  err <- stackImport stack targetCheckpoint ;;
  match err with
  | Some err => ret (Err (Errorf_w "failed to import target state: " err))
  | None =>
  let previewOpts :=
    [opt_Message ("Preview rollback to version " +:+ itoa (TargetVersion opts))] in
  r <- stackPreview stack previewOpts ;;
  restoreErr <- stackImport stack currentState ;;
  (match restoreErr with
   | Some restoreErr =>
       fmt_Fprintf (outputOf opts)
         ("Warning: failed to restore current state: " +:+ Error restoreErr +:+ LF)
   | None => ret tt
   end) ;;
  match r with
  | Err err => ret (Err (Errorf_w "preview failed: " err))
  | Ok result =>
      ret (Ok {| rollback.Success := true;
                 rollback.Message := "Preview of rollback to version "
                            +:+ itoa (TargetVersion opts) +:+ " completed";
                 rollback.ResourceChanges :=
                   rollback.convertOpTypeChangeSummary (pr_ChangeSummary result);
                 rollback.Stdout := pr_StdOut result;
                 rollback.Stderr := pr_StdErr result |})
  end end end end end.

Definition ExecuteRollback (opts : RollbackOptions)
  : M W (result rollback.RollbackResult) :=
  r <- selectStackLocalSource (StackName opts) (ProjectPath opts) ;;
  match r with
  | Err err => ret (Err (Errorf_w "failed to select stack: " err))
  | Ok stack =>
  r <- getCheckpointForVersion stack (TargetVersion opts) ;;
  match r with
  | Err err =>
      ret (Err (Errorf_w ("failed to get checkpoint for version "
                          +:+ itoa (TargetVersion opts) +:+ ": ") err))
  | Ok targetCheckpoint =>
  err <- stackImport stack targetCheckpoint ;;
  match err with
  | Some err => ret (Err (Errorf_w "failed to import target state: " err))
  | None =>
  fmt_Fprintf (outputOf opts)
    ("Refreshing stack to reconcile with target state..." +:+ LF) ;;
  r <- stackRefresh stack [] ;;
  match r with
  | Err err => ret (Err (Errorf_w "refresh failed: " err))
  | Ok _ =>
  fmt_Fprintf (outputOf opts) ("Applying rollback changes..." +:+ LF) ;;
  let upOpts :=
    [opt_Message ("Rollback to version " +:+ itoa (TargetVersion opts))] in
  r <- stackUp stack upOpts ;;
  match r with
  | Err err => ret (Err (Errorf_w "rollback failed: " err))
  | Ok result =>
      let changes :=
        match us_ResourceChanges (ur_Summary result) with
        | Some m => copy_into m ∅
        | None => ∅
        end in
      ret (Ok {| rollback.Success := true;
                 rollback.Message := "Successfully rolled back to version "
                            +:+ itoa (TargetVersion opts);
                 rollback.ResourceChanges := changes;
                 rollback.Stdout := ur_StdOut result;
                 rollback.Stderr := ur_StdErr result |})
  end end end end end.

(** The options of the later version that stand for [opts]: no operator. *)
Definition with_default_operator (opts : RollbackOptions)
  : rollback.RollbackOptions W :=
  {| rollback.ProjectPath := ProjectPath opts;
     rollback.StackName := StackName opts;
     rollback.TargetVersion := TargetVersion opts;
     rollback.DryRun := DryRun opts;
     rollback.Verbose := Verbose opts;
     rollback.Output := Output opts;
     rollback.Operator := None |}.

End Rollback.

End rollback_2024.

(** ** Package [cmd]: the command [list] ([list.go]) *)

Module cmd_list.
Import golang.
Local Open Scope go_scope.

Definition TAB : string := String (Ascii.ascii_of_nat 9) EmptyString.

(** [formatResult] *)
Definition formatResult (result : string) : string :=
  if String.eqb result "succeeded" then "✓ success"
  else if String.eqb result "failed" then "✗ failed"
  else if String.eqb result "in-progress" then "⟳ running"
  else result.

(** [changes[key]]: zero for a missing key. *)
Definition count (changes : gomap) (key : string) : Z :=
  default 0 (changes !! key).

(** The loop that joins [parts] with spaces, from index [i] on. *)
Fixpoint join (i : nat) (result : string) (parts : list string) : string :=
  match parts with
  | [] => result
  | p :: rest =>
      join (S i) ((if Nat.ltb 0 i then result +:+ " " else result) +:+ p) rest
  end.

(** [formatChanges] *)
Definition formatChanges (changes : gomap) : string :=
  if bool_decide (changes = ∅) then "-"
  else
    let create := count changes "create" in
    let update := count changes "update" in
    let delete := count changes "delete" in
    let same := count changes "same" in
    let parts : list string := [] in
    let parts := if 0 <? create then parts ++ ["+" +:+ itoa create] else parts in
    let parts := if 0 <? update then parts ++ ["~" +:+ itoa update] else parts in
    let parts := if 0 <? delete then parts ++ ["-" +:+ itoa delete] else parts in
    if (0 <? same) && Nat.eqb (length parts) 0 then "=" +:+ itoa same
    else if Nat.eqb (length parts) 0 then "-"
    else join 0 EmptyString parts.

(** The slice expression [s[:hi]]; [None] when it panics. *)
Definition slice_to (s : string) (hi : Z) : option string :=
  if (0 <=? hi) && (hi <=? Z.of_nat (String.length s))
  then Some (String.substring 0 (Z.to_nat hi) s)
  else None.

(** [truncateString]; lengths are in bytes, [None] is the panic of the
    slice expression. *)
Definition truncateString (s : string) (maxLen : Z) : option string :=
  if Z.of_nat (String.length s) <=? maxLen then Some s
  else match slice_to s (maxLen - 3) with
       | Some head => Some (head +:+ "...")
       | None => None
       end.

Section List.

Context {W : Type} {Time : Type}.
Variable Time_zero : Time.
Variable time_Parse_RFC3339 : string -> result Time.
Variable Time_IsZero : Time -> bool.
Variable Time_Format : Time -> string -> string.
Variable os_Getenv : string -> string.
Variable DefaultSelector : history.StackSelector W.
Variable flags : cmd.Flags.

(** The flag [--limit]. *)
Variable listLimit : Z.

(** What a [tabwriter.NewWriter(os.Stdout, 0, 0, 2, ' ', 0)] writes at
    [Flush] for the text it was given. *)
Variable tabwriter_format : string -> string.

(** [if listLimit > 0 && listLimit < len(updates) { updates = updates[:listLimit] }] *)
Definition limited (updates : list (history.UpdateInfo Time))
  : list (history.UpdateInfo Time) :=
  if (0 <? listLimit) && (listLimit <? Z.of_nat (length updates))
  then take (Z.to_nat listLimit) updates
  else updates.

(** The line of one update; [truncateString] does not panic with 40. *)
Definition row (update : history.UpdateInfo Time) : string :=
  let timeStr := cmd.formatTime Time_IsZero Time_Format (history.StartTime update) in
  let changesStr := formatChanges (history.ResourceChanges update) in
  let message :=
    match truncateString (history.Message update) 40 with
    | Some message => message
    | None => history.Message update
    end in
  itoa (history.Version update) +:+ TAB +:+ history.Kind update +:+ TAB
  +:+ formatResult (history.Result update) +:+ TAB +:+ timeStr +:+ TAB
  +:+ changesStr +:+ TAB +:+ message +:+ LF.

(** The text given to the tabwriter. *)
Definition table (updates : list (history.UpdateInfo Time)) : string :=
  ("VERSION" +:+ TAB +:+ "KIND" +:+ TAB +:+ "RESULT" +:+ TAB +:+ "TIME" +:+ TAB
   +:+ "CHANGES" +:+ TAB +:+ "MESSAGE" +:+ LF)
  +:+ ("-------" +:+ TAB +:+ "----" +:+ TAB +:+ "------" +:+ TAB +:+ "----" +:+ TAB
       +:+ "-------" +:+ TAB +:+ "-------" +:+ LF)
  +:+ fold_right (fun update rest => row update +:+ rest) EmptyString updates.

(** [runList] *)
Definition runList : M W (option error) :=
  match cmd.getStackName os_Getenv flags with
  | Err err => ret (Some err)
  | Ok stack =>
  let projectPath := cmd.getProjectPath flags in
  (if cmd.isVerbose flags
   then fmt_Fprintf os_Stdout
          ("Fetching history for stack " +:+ stack +:+ " in " +:+ projectPath
           +:+ "..." +:+ LF)
   else ret tt) ;;
  r <- history.GetStackHistory Time_zero time_Parse_RFC3339 DefaultSelector
         projectPath stack ;;
  match r with
  | Err err => ret (Some (Errorf_w "failed to get stack history: " err))
  | Ok updates =>
  if Nat.eqb (length updates) 0 then
    fmt_Fprintf os_Stdout ("No deployment history found for this stack." +:+ LF) ;;
    ret None
  else
  let updates := limited updates in
  fmt_Fprintf os_Stdout (tabwriter_format (table updates)) ;;
  fmt_Fprintf os_Stdout
    (LF +:+ "Total: " +:+ itoa (Z.of_nat (length updates)) +:+ " deployment(s)" +:+ LF) ;;
  fmt_Fprintf os_Stdout
    (LF +:+ "Use 'pulumi-rollback preview --stack <stack> --version <n>' to preview a rollback"
     +:+ LF) ;;
  ret None
  end end.

End List.

End cmd_list.

(** ** More to read off a log *)

Module logs.
Import golang.

(** The calls that reconcile or change the infrastructure. *)
Definition is_Refresh_or_Up (e : Event) : bool :=
  match e with
  | CallRefresh _ _ | CallUp _ _ => true
  | _ => false
  end.

Definition is_Preview (e : Event) : bool :=
  match e with CallPreview _ _ => true | _ => false end.

Definition is_Fprintf (e : Event) : bool :=
  match e with Fprintf _ _ => true | _ => false end.

(** A log without its writes: the calls to the backend and the reads of
    the terminal. *)
Definition silent (tr : list Event) : list Event :=
  List.filter (fun e => negb (is_Fprintf e)) tr.

End logs.

(** ** More test doubles and runs *)

Module mock_more.
Import golang mock.


(** The result of [Up] in [TestExecuteRollback_Success]. *)
Definition two_created : UpResult :=
  {| ur_StdOut := "up output"; ur_StdErr := EmptyString;
     ur_Summary :=
       {| us_Version := 0; us_Kind := EmptyString; us_StartTime := EmptyString;
          us_Message := EmptyString; us_Result := EmptyString; us_EndTime := None;
          us_ResourceChanges := Some {[ "create" := 2 ]} |} |}.

(** [TestExecuteRollback_Success] *)
Definition success_stack : MockRollbackStack nat :=
  {| ExportFunc := Some (fun w => (Ok (document "{}"), w));
     ImportFunc := None;
     HistoryFunc := Some (fun _ _ w => (Ok [version 1], w));
     PreviewFunc := None; RefreshFunc := None;
     UpFunc := Some (fun _ w => (Ok two_created, w)) |}.

(** A summary as in [TestConvertUpdates]: an unparsable start time and an
    empty end time. *)
Definition badly_timed : UpdateSummary :=
  {| us_Version := 4; us_Kind := "update"; us_StartTime := "invalid-date";
     us_Message := "test"; us_Result := "succeeded";
     us_EndTime := Some EmptyString; us_ResourceChanges := None |}.

(** A parser that knows one timestamp. *)
Definition parse_time (s : string) : result string :=
  if String.eqb s "2024-01-15T10:00:00Z" then Ok s
  else Err (errorString "parsing time: cannot parse").

Definition info (v : Z) : history.UpdateInfo string :=
  history.convertUpdate EmptyString parse_time (version v).

(** The commands on a mock backend: times are strings, the environment is
    empty, the terminal answers [answer] and the operator behind
    [DefaultOperator] returns [stack]. *)
Definition flags_of (stack : string) (version : Z) (yes : bool) : cmd.Flags :=
  {| cmd.stackName := stack; cmd.projectPath := "."; cmd.verbose := false;
     cmd.rollbackVersion := version; cmd.skipConfirm := yes;
     cmd.previewVersion := version |}.

Definition answering (answer : string) : nat -> result string * nat :=
  fun w => (Ok answer, w).

Definition to_on (answer : string) (stack : MockRollbackStack nat)
  (flags : cmd.Flags) : Run nat (option error) :=
  cmd.runRollback EmptyString parse_time
    (fun t => String.eqb t EmptyString) (fun t _ => t)
    (fun _ => EmptyString) (fun s => s) (fun s => s)
    (answering answer) json_Unmarshal_object history_5_2_1
    (operator_returning stack) flags 0%nat.

Definition preview_on (stack : MockRollbackStack nat) (flags : cmd.Flags)
  : Run nat (option error) :=
  cmd.runPreview EmptyString parse_time
    (fun t => String.eqb t EmptyString) (fun t _ => t)
    (fun _ => EmptyString) json_Unmarshal_object history_5_2_1
    (operator_returning stack) flags 0%nat.

Definition list_on (limit : Z) (flags : cmd.Flags) : Run nat (option error) :=
  cmd_list.runList EmptyString parse_time
    (fun t => String.eqb t EmptyString) (fun t _ => t)
    (fun _ => EmptyString) history_5_2_1 flags limit (fun text => text) 0%nat.

End mock_more.

(** * Properties *)

(** ** Rules for runs *)

Module runs.
Import golang.

Section Rules.

Context {W : Type}.

Lemma wp_ret {A} (a : A) (w : W) Q : Q a w [] -> wp (ret a) w Q.
Proof. exact (fun H => H). Qed.

Lemma wp_bind {A B} (m : M W A) (k : A -> M W B) (w : W) Q :
  wp m w (fun a w1 t1 => wp (k a) w1 (fun b w2 t2 => Q b w2 (t1 ++ t2))) ->
  wp (bind m k) w Q.
Proof. exact (fun H => H). Qed.

Lemma wp_emit (e : Event) (w : W) Q : Q tt w [e] -> wp (emit e) w Q.
Proof. exact (fun H => H). Qed.

Lemma bind_outcome {A B} (m : M W A) (k : A -> M W B) (w : W) :
  outcome (bind m k w) = outcome (k (outcome (m w)) (final (m w))).
Proof. reflexivity. Qed.

Lemma bind_calls {A B} (m : M W A) (k : A -> M W B) (w : W) :
  calls (bind m k w) = calls (m w) ++ calls (k (outcome (m w)) (final (m w))).
Proof. reflexivity. Qed.

Lemma bind_final {A B} (m : M W A) (k : A -> M W B) (w : W) :
  final (bind m k w) = final (k (outcome (m w)) (final (m w))).
Proof. reflexivity. Qed.

Lemma run_eta {A} (r : Run W A) :
  r = {| outcome := outcome r; final := final r; calls := calls r |}.
Proof. destruct r; reflexivity. Qed.

(** The rule that keeps what the computation returned, for the steps whose
    result the property is about. *)
Lemma wp_run {A} (m : M W A) (w : W) Q :
  Q (outcome (m w)) (final (m w)) (calls (m w)) -> wp m w Q.
Proof. exact (fun H => H). Qed.

End Rules.

Lemma imports_app (t1 t2 : list Event) :
  imports (t1 ++ t2) = imports t1 ++ imports t2.
Proof.
  induction t1 as [|e t1 IH]; [reflexivity|].
  destruct e; cbn [imports app]; rewrite ?IH; reflexivity.
Qed.

Lemma copy_into_empty (m : gomap) : copy_into m ∅ = m.
Proof.
  unfold copy_into.
  apply (map_fold_weak_ind (fun acc src => acc = src)); [reflexivity|].
  intros k v src acc Hk ->. reflexivity.
Qed.

Lemma append_empty_r (s : string) : s +:+ EmptyString = s.
Proof.
  induction s as [|c s IH]; [reflexivity|].
  change (String c (s +:+ EmptyString) = String c s). now f_equal.
Qed.

Lemma Writer_eqb_refl (w : Writer) : Writer_eqb w w = true.
Proof. destruct w; [reflexivity | apply Nat.eqb_refl]. Qed.

Lemma written_one (w : Writer) (s : string) : written w [Fprintf w s] = s.
Proof. cbn [written]. rewrite Writer_eqb_refl. apply append_empty_r. Qed.

Lemma mutating_app (t1 t2 : list Event) :
  List.filter mutating (t1 ++ t2) = List.filter mutating t1 ++ List.filter mutating t2.
Proof. apply List.filter_app. Qed.

End runs.

(** ** The history resolver *)

Module history_properties.
Import golang history.

Section Resolver.

Context {Time : Type}.
Implicit Types (H : list (UpdateInfo Time)) (v : Z).

Lemma FindUpdateByVersion_Ok H v u :
  FindUpdateByVersion H v = Ok u -> In u H /\ Version u = v.
Proof.
  induction H as [|r H IH]; cbn [FindUpdateByVersion]; [discriminate|].
  destruct (Z.eqb_spec (Version r) v) as [Heq|Hne].
  - intros [= <-]. split; [now left | exact Heq].
  - intros Hf. destruct (IH Hf). split; [now right | assumption].
Qed.

Lemma FindUpdateByVersion_In H v r :
  In r H -> Version r = v -> exists u, FindUpdateByVersion H v = Ok u.
Proof.
  induction H as [|r' H IH]; intros Hin Hv; [destruct Hin|].
  cbn [FindUpdateByVersion].
  destruct (Z.eqb_spec (Version r') v) as [Heq|Hne]; [eauto|].
  destruct Hin as [->|Hin]; [contradiction | eauto].
Qed.

Lemma FindUpdateByVersion_Err H v e :
  FindUpdateByVersion H v = Err e ->
  e = errorString ("version " +:+ itoa v +:+ " not found in stack history")
  /\ Forall (fun r => Version r <> v) H.
Proof.
  induction H as [|r H IH]; cbn [FindUpdateByVersion].
  - intros [= <-]. split; [reflexivity | constructor].
  - destruct (Z.eqb_spec (Version r) v) as [Heq|Hne]; [discriminate|].
    intros Hf. destruct (IH Hf). split; [assumption | now constructor].
Qed.

Lemma VersionExistsInHistory_iff (h : list UpdateSummary) v :
  rollback.VersionExistsInHistory h v = true <->
  exists r, In r h /\ us_Version r = v.
Proof.
  induction h as [|r h IH]; cbn [rollback.VersionExistsInHistory].
  - split; [discriminate | intros (r & [] & _)].
  - destruct (Z.eqb_spec (us_Version r) v) as [Heq|Hne].
    + split; [|reflexivity]. intros _. exists r. split; [now left | exact Heq].
    + rewrite IH. split; intros (r' & Hin & Hv); exists r'.
      * split; [now right | assumption].
      * destruct Hin as [->|Hin]; [contradiction | now split].
Qed.

Lemma ConvertUpdates_map (Time_zero : Time) parse (history : list UpdateSummary) :
  ConvertUpdates Time_zero parse history = map (convertUpdate Time_zero parse) history.
Proof.
  unfold ConvertUpdates.
  enough (Hgen : forall acc,
    fold_left (fun updates update => updates ++ [convertUpdate Time_zero parse update])
      history acc = acc ++ map (convertUpdate Time_zero parse) history)
    by apply (Hgen []).
  induction history as [|u history IH]; intros acc; cbn [fold_left map].
  - now rewrite app_nil_r.
  - rewrite IH, <- app_assoc. reflexivity.
Qed.

(** C8. Lookup by version succeeds exactly when some record of the history
    carries the version; it then returns such a record (the first one), and
    otherwise fails with the version-not-found error.  The same holds of
    [VersionExistsInHistory] on the summaries of the backend. *)
Theorem FindUpdateByVersion_succeeds_iff H v :
  (is_Ok (FindUpdateByVersion H v) = true <->
     exists r, In r H /\ Version r = v)
  /\ ((exists u, FindUpdateByVersion H v = Ok u /\ In u H /\ Version u = v)
      \/ (FindUpdateByVersion H v
            = Err (errorString
                     ("version " +:+ itoa v +:+ " not found in stack history"))
          /\ Forall (fun r => Version r <> v) H))
  /\ (forall h : list UpdateSummary,
        rollback.VersionExistsInHistory h v = true <->
        exists r, In r h /\ us_Version r = v).
Proof.
  split; [|split].
  - split.
    + destruct (FindUpdateByVersion H v) as [u|e] eqn:Hf; [|discriminate].
      intros _. exists u. now apply FindUpdateByVersion_Ok.
    + intros (r & Hin & Hv).
      destruct (FindUpdateByVersion_In H v r Hin Hv) as [u ->]. reflexivity.
  - destruct (FindUpdateByVersion H v) as [u|e] eqn:Hf.
    + left. exists u. split; [reflexivity|]. now apply FindUpdateByVersion_Ok.
    + right. destruct (FindUpdateByVersion_Err H v e Hf) as [-> Hall]. now split.
  - intros h. apply VersionExistsInHistory_iff.
Qed.

(** C9. Latest-version resolution returns the version of the first record
    of a non-empty history and fails with the empty-history error on the
    empty one; [GetLatestVersionWithSelector], and with it [GetLatestVersion]
    on the default selector, applies it to the history it fetched. *)
Theorem GetLatestVersionFromHistory_first H (stackName : string) :
  match H with
  | [] =>
      GetLatestVersionFromHistory H stackName
      = Err (errorString ("no deployment history found for stack " +:+ stackName))
  | first :: _ =>
      H !! 0%nat = Some first
      /\ GetLatestVersionFromHistory H stackName = Ok (Version first)
  end
  /\ (forall (W : Type) Time_zero parse (projectPath : string)
        (selector : StackSelector W) (w : W),
        outcome (GetLatestVersionWithSelector Time_zero parse projectPath
                   stackName selector w)
        = match outcome (GetStackHistoryWithSelector Time_zero parse projectPath
                           stackName selector w) with
          | Err err => Err err
          | Ok fetched => @GetLatestVersionFromHistory Time fetched stackName
          end).
Proof.
  split.
  - destruct H as [|first rest]; [reflexivity | split; reflexivity].
  - intros W Time_zero parse projectPath selector w.
    unfold GetLatestVersionWithSelector. rewrite runs.bind_outcome.
    destruct (outcome (GetStackHistoryWithSelector _ _ _ _ _ w)); reflexivity.
Qed.

(** Under the most-recent-first ordering the first record is the latest. *)
Lemma first_version_is_greatest H (first : UpdateInfo Time) rest :
  H = first :: rest ->
  StronglySorted (fun a b => Version b <= Version a) H ->
  Forall (fun r => Version r <= Version first) H.
Proof.
  intros -> Hs. inversion Hs as [|? ? _ Hall]; subst.
  constructor; [lia | exact Hall].
Qed.

End Resolver.

End history_properties.

(** ** The checkpoint retriever and the rollback orchestrator *)

Module rollback_properties.
Import golang rollback steps runs.

Section Flows.

Context {W : Type}.
Variable json : string -> option error.
Variable DefaultOperator : StackOperator W.

Lemma wp_selectStack operator n p (w : W) Q :
  (forall r w1, Q r w1 [CallSelectStack n p (error_of r)]) ->
  wp (selectStack operator n p) w Q.
Proof. intros H. apply H. Qed.

Lemma wp_stackExport (stack : RollbackStack W) w Q :
  (forall r w1, Q r w1 [CallExport r]) -> wp (stackExport stack) w Q.
Proof. intros H. apply H. Qed.

Lemma wp_stackImport (stack : RollbackStack W) state w Q :
  (forall err w1, Q err w1 [CallImport state err]) ->
  wp (stackImport stack state) w Q.
Proof. intros H. apply H. Qed.

Lemma wp_stackHistory (stack : RollbackStack W) ps pg w Q :
  (forall r w1, Q r w1 [CallHistory ps pg r]) ->
  wp (stackHistory stack ps pg) w Q.
Proof. intros H. apply H. Qed.

Lemma wp_stackPreview (stack : RollbackStack W) o w Q :
  (forall r w1, Q r w1 [CallPreview o r]) -> wp (stackPreview stack o) w Q.
Proof. intros H. apply H. Qed.

Lemma wp_stackRefresh (stack : RollbackStack W) o w Q :
  (forall r w1, Q r w1 [CallRefresh o r]) -> wp (stackRefresh stack o) w Q.
Proof. intros H. apply H. Qed.

Lemma wp_stackUp (stack : RollbackStack W) o w Q :
  (forall r w1, Q r w1 [CallUp o r]) -> wp (stackUp stack o) w Q.
Proof. intros H. apply H. Qed.

Lemma stackHistory_run (stack : RollbackStack W) ps pg w :
  stackHistory stack ps pg w
  = {| outcome := fst (History stack ps pg w);
       final := snd (History stack ps pg w);
       calls := [CallHistory ps pg (fst (History stack ps pg w))] |}.
Proof. reflexivity. Qed.

Lemma stackExport_run (stack : RollbackStack W) w :
  stackExport stack w
  = {| outcome := fst (Export stack w);
       final := snd (Export stack w);
       calls := [CallExport (fst (Export stack w))] |}.
Proof. reflexivity. Qed.

Lemma wp_GetCheckpointForVersion (stack : RollbackStack W) (version : Z) (w : W) Q :
  (forall r w1 t, checkpoint_path json version r t -> Q r w1 t) ->
  wp (GetCheckpointForVersion json stack version) w Q.
Proof.
  intros HQ. unfold GetCheckpointForVersion.
  apply wp_bind, wp_stackHistory. intros [h|e] w1.
  - destruct (VersionExistsInHistory h version) eqn:Hv; cbn [negb].
    + apply wp_bind, wp_stackExport. intros [d|e] w2.
      * destruct (ValidateDeployment json d) eqn:Hd; apply wp_ret, HQ.
        -- now apply CP_parse_failed.
        -- now apply CP_found.
      * apply wp_ret, HQ. now apply CP_export_failed.
    + apply wp_ret, HQ. now apply CP_not_found.
  - apply wp_ret, HQ. apply CP_history_failed.
Qed.

Lemma GetCheckpointForVersion_path (stack : RollbackStack W) (version : Z) (w : W) :
  let r := GetCheckpointForVersion json stack version w in
  checkpoint_path json version (outcome r) (calls r).
Proof.
  apply (wp_GetCheckpointForVersion stack version w
           (fun a _ t => checkpoint_path json version a t)).
  auto.
Qed.

Lemma PreviewRollback_path (opts : RollbackOptions W) (w : W) :
  let r := PreviewRollback json DefaultOperator opts w in
  preview_path json opts (outcome r) (calls r).
Proof.
  change (wp (PreviewRollback json DefaultOperator opts) w
            (fun a _ t => preview_path json opts a t)).
  unfold PreviewRollback.
  apply wp_bind, wp_selectStack. intros [stack|e] w1; [|apply wp_ret, PP_select_failed].
  apply wp_bind, wp_stackExport. intros [cur|e] w2; [|apply wp_ret, PP_export_failed].
  apply wp_bind, wp_GetCheckpointForVersion. intros [tgt|e] w3 tr Hcp.
  2:{ apply wp_ret. rewrite app_nil_r. now apply PP_checkpoint_failed. }
  apply wp_bind, wp_stackImport. intros [e|] w4.
  { apply wp_ret. rewrite app_nil_r. now apply PP_import_failed. }
  apply wp_bind, wp_stackPreview. intros r w5.
  apply wp_bind, wp_stackImport. intros restoreErr w6.
  apply wp_bind.
  assert (Hw : forall Q : unit -> W -> list Event -> Prop,
             Q tt w6 (restore_warning opts restoreErr) ->
             wp match restoreErr with
                | Some restoreErr0 =>
                    fmt_Fprintf (outputOf opts)
                      ("Warning: failed to restore current state: "
                       +:+ Error restoreErr0 +:+ LF)
                | None => ret tt
                end w6 Q).
  { intros Q HQ. destruct restoreErr; exact HQ. }
  apply Hw.
  destruct r as [result|err]; apply wp_ret; rewrite app_nil_r;
    change (?a :: ?b :: ?c ++ [?x] ++ [?y] ++ [?z] ++ ?u)
      with (a :: b :: c ++ [x; y; z] ++ u).
  - apply (PP_previewed json opts cur tgt tr (Ok result) restoreErr Hcp).
  - apply (PP_previewed json opts cur tgt tr (Err err) restoreErr Hcp).
Qed.

Lemma ExecuteRollback_path (opts : RollbackOptions W) (w : W) :
  let r := ExecuteRollback json DefaultOperator opts w in
  execute_path json opts (outcome r) (calls r).
Proof.
  change (wp (ExecuteRollback json DefaultOperator opts) w
            (fun a _ t => execute_path json opts a t)).
  unfold ExecuteRollback.
  apply wp_bind, wp_selectStack. intros [stack|e] w1; [|apply wp_ret, EP_select_failed].
  apply wp_bind, wp_GetCheckpointForVersion. intros [tgt|e] w2 tr Hcp.
  2:{ apply wp_ret. rewrite app_nil_r. now apply EP_checkpoint_failed. }
  apply wp_bind, wp_stackImport. intros [e|] w3.
  { apply wp_ret. rewrite app_nil_r. now apply EP_import_failed. }
  apply wp_bind, wp_emit.
  apply wp_bind, wp_stackRefresh. intros [rr|e] w4.
  2:{ apply wp_ret. rewrite app_nil_r. now apply EP_refresh_failed. }
  apply wp_bind, wp_emit.
  apply wp_bind, wp_stackUp. intros [result|e] w5; apply wp_ret; rewrite app_nil_r.
  - now apply EP_applied.
  - now apply EP_up_failed.
Qed.

(** Case analysis on the path a run followed, from its path lemma. *)
Ltac unfold_events :=
  unfold selected, restore_warning, checkpoint_error in *.

Ltac list_facts :=
  cbn [imports exports app hd_error List.filter mutating read_only In
       outcome calls final] in *.

Ltac by_checkpoint_path :=
  repeat match goal with
  | H : checkpoint_path _ _ _ _ |- _ => inversion H; subst; clear H
  end.

Ltac in_cases H :=
  repeat (destruct H as [H|H]); try discriminate H; try contradiction.

Ltac follow path :=
  let Hp := fresh "Hp" in
  pose proof path as Hp; cbv zeta in Hp;
  match type of Hp with
  | _ (outcome ?run) (calls ?run) =>
      let out := fresh "out" in
      let wf := fresh "wf" in
      let log := fresh "log" in
      destruct run as [out wf log]
  end;
  cbn [outcome calls final] in *;
  destruct Hp; by_checkpoint_path; unfold_events; list_facts.

Lemma imports_restore_warning (opts : RollbackOptions W) err :
  imports (restore_warning opts err) = [].
Proof. destruct err; reflexivity. Qed.

Lemma exports_restore_warning (opts : RollbackOptions W) err :
  exports (restore_warning opts err) = [].
Proof. destruct err; reflexivity. Qed.

(** *** The runs on the backend

    The paths above give the log of a run; the lemmas below also say where
    each logged result comes from and which world the run ends in. *)

Lemma wp_restore_warning (opts : RollbackOptions W) (restoreErr : option error) (w : W) Q :
  Q tt w (restore_warning opts restoreErr) ->
  wp match restoreErr with
     | Some restoreErr =>
         fmt_Fprintf (outputOf opts)
           ("Warning: failed to restore current state: " +:+ Error restoreErr +:+ LF)
     | None => ret tt
     end w Q.
Proof. destruct restoreErr; exact (fun H => H). Qed.

Lemma wp_preview_outcome (opts : RollbackOptions W) (r : result PreviewResult) (w : W) Q :
  Q (preview_outcome opts r) w [] ->
  wp match r with
     | Err err => ret (Err (Errorf_w "preview failed: " err))
     | Ok result =>
         ret (Ok {| Success := true;
                    Message := "Preview of rollback to version "
                               +:+ itoa (TargetVersion opts) +:+ " completed";
                    ResourceChanges :=
                      convertOpTypeChangeSummary (pr_ChangeSummary result);
                    Stdout := pr_StdOut result;
                    Stderr := pr_StdErr result |})
     end w Q.
Proof. destruct r; exact (fun H => H). Qed.

Lemma PreviewRollback_run (opts : RollbackOptions W) (w : W) :
  preview_run json DefaultOperator opts w (PreviewRollback json DefaultOperator opts w).
Proof.
  rewrite (run_eta (PreviewRollback json DefaultOperator opts w)).
  change (wp (PreviewRollback json DefaultOperator opts) w
            (fun a wf t =>
               preview_run json DefaultOperator opts w
                 {| outcome := a; final := wf; calls := t |})).
  unfold PreviewRollback.
  apply wp_bind, wp_run.
  change (outcome (selectStack ?o ?n ?p ?w0)) with (fst (SelectStack o n p w0)).
  change (final (selectStack ?o ?n ?p ?w0)) with (snd (SelectStack o n p w0)).
  change (calls (selectStack ?o ?n ?p ?w0))
    with [CallSelectStack n p (error_of (fst (SelectStack o n p w0)))].
  destruct (fst (SelectStack _ _ _ w)) as [stack|e] eqn:Hsel.
  2:{ apply wp_ret. apply PR_select_failed. exact Hsel. }
  apply wp_bind, wp_run.
  change (outcome (stackExport ?s ?w0)) with (fst (Export s w0)).
  change (final (stackExport ?s ?w0)) with (snd (Export s w0)).
  change (calls (stackExport ?s ?w0)) with [CallExport (fst (Export s w0))].
  destruct (fst (Export stack _)) as [cur|e] eqn:Hexp.
  2:{ apply wp_ret. apply (PR_export_failed _ _ _ _ stack e Hsel Hexp). }
  apply wp_bind, wp_run.
  destruct (outcome (GetCheckpointForVersion json stack _ _)) as [tgt|e] eqn:Hcp.
  2:{ apply wp_ret. rewrite app_nil_r.
      apply (PR_checkpoint_failed _ _ _ _ stack cur e Hsel Hexp Hcp). }
  apply wp_bind, wp_run.
  change (outcome (stackImport ?s ?d ?w0)) with (fst (Import s d w0)).
  change (final (stackImport ?s ?d ?w0)) with (snd (Import s d w0)).
  change (calls (stackImport ?s ?d ?w0)) with [CallImport d (fst (Import s d w0))].
  destruct (fst (Import stack tgt _)) as [e|] eqn:Himp.
  { apply wp_ret. rewrite app_nil_r.
    apply (PR_import_failed _ _ _ _ stack cur tgt e Hsel Hexp Hcp Himp). }
  apply wp_bind, wp_run.
  change (outcome (stackPreview ?s ?o ?w0)) with (fst (Preview s o w0)).
  change (final (stackPreview ?s ?o ?w0)) with (snd (Preview s o w0)).
  change (calls (stackPreview ?s ?o ?w0)) with [CallPreview o (fst (Preview s o w0))].
  apply wp_bind, wp_run.
  change (outcome (stackImport ?s ?d ?w0)) with (fst (Import s d w0)).
  change (final (stackImport ?s ?d ?w0)) with (snd (Import s d w0)).
  change (calls (stackImport ?s ?d ?w0)) with [CallImport d (fst (Import s d w0))].
  apply wp_bind, wp_restore_warning, wp_preview_outcome.
  rewrite app_nil_r.
  apply (PR_previewed json DefaultOperator opts w stack cur tgt).
  repeat split; assumption.
Qed.

(** The log of a checkpoint retrieval that succeeded. *)
Lemma the_checkpoint_found (stack : RollbackStack W) (version : Z) (w : W)
  (tgt : UntypedDeployment) :
  let r := GetCheckpointForVersion json stack version w in
  outcome r = Ok tgt ->
  exists h, calls r = [CallHistory 0 0 (Ok h); CallExport (Ok tgt)].
Proof.
  cbv zeta.
  pose proof (GetCheckpointForVersion_path stack version w) as Hp.
  cbv zeta in Hp.
  destruct (GetCheckpointForVersion json stack version w) as [out wf log].
  cbn [outcome calls] in *. intros ->.
  inversion Hp; subst. eexists. reflexivity.
Qed.

Lemma the_checkpoint_imports_nothing (stack : RollbackStack W) (version : Z) (w : W) :
  imports (calls (GetCheckpointForVersion json stack version w)) = [].
Proof.
  pose proof (GetCheckpointForVersion_path stack version w) as Hp.
  cbv zeta in Hp. destruct Hp; reflexivity.
Qed.

(** The run of [PreviewRollback] once the target checkpoint was imported. *)
Lemma PreviewRollback_after_the_target_import
  (opts : RollbackOptions W) (w : W) (stack : RollbackStack W)
  (cur tgt : UntypedDeployment) :
  target_imported json DefaultOperator opts w stack cur tgt ->
  PreviewRollback json DefaultOperator opts w
  = {| outcome := preview_outcome opts (fst (the_preview json DefaultOperator opts w stack tgt));
       final := snd (the_restore json DefaultOperator opts w stack cur tgt);
       calls := selected opts None :: CallExport (Ok cur)
                :: calls (the_checkpoint json DefaultOperator opts w stack)
                ++ [CallImport tgt None;
                    CallPreview (previewOpts opts)
                      (fst (the_preview json DefaultOperator opts w stack tgt));
                    CallImport cur (fst (the_restore json DefaultOperator opts w stack cur tgt))]
                ++ restore_warning opts
                     (fst (the_restore json DefaultOperator opts w stack cur tgt)) |}.
Proof.
  intros (Hsel & Hexp & Hcp & Himp).
  destruct (PreviewRollback_run opts w)
    as [e Hsel'|stack' e Hsel' Hexp'|stack' cur' e Hsel' Hexp' Hcp'
        |stack' cur' tgt' e Hsel' Hexp' Hcp' Himp'
        |stack' cur' tgt' (Hsel' & Hexp' & Hcp' & Himp')];
    rewrite Hsel in Hsel'; try discriminate Hsel';
    injection Hsel' as <-;
    rewrite Hexp in Hexp'; try discriminate Hexp';
    injection Hexp' as <-;
    rewrite Hcp in Hcp'; try discriminate Hcp';
    injection Hcp' as <-.
  - rewrite Himp in Himp'. discriminate Himp'.
  - reflexivity.
Qed.

(** Only a run that got the target checkpoint imported has a successful
    [Import] first in its log. *)
Lemma PreviewRollback_first_import
  (opts : RollbackOptions W) (w : W) (tgt : UntypedDeployment) :
  hd_error (imports (calls (PreviewRollback json DefaultOperator opts w)))
  = Some (tgt, None) ->
  exists stack cur, target_imported json DefaultOperator opts w stack cur tgt.
Proof.
  destruct (PreviewRollback_run opts w)
    as [e Hsel|stack e Hsel Hexp|stack cur e Hsel Hexp Hcp
        |stack cur tgt' e Hsel Hexp Hcp Himp
        |stack cur tgt' Hreach];
    unfold selected; cbn [calls imports];
    rewrite ?imports_app; unfold the_checkpoint;
    rewrite ?the_checkpoint_imports_nothing; cbn [imports app hd_error];
    intros Hhd; try discriminate Hhd.
  injection Hhd as ->. exists stack, cur. exact Hreach.
Qed.

Lemma ExecuteRollback_run (opts : RollbackOptions W) (w : W) :
  execute_run json DefaultOperator opts w (ExecuteRollback json DefaultOperator opts w).
Proof.
  rewrite (run_eta (ExecuteRollback json DefaultOperator opts w)).
  change (wp (ExecuteRollback json DefaultOperator opts) w
            (fun a wf t =>
               execute_run json DefaultOperator opts w
                 {| outcome := a; final := wf; calls := t |})).
  unfold ExecuteRollback.
  apply wp_bind, wp_run.
  change (outcome (selectStack ?o ?n ?p ?w0)) with (fst (SelectStack o n p w0)).
  change (final (selectStack ?o ?n ?p ?w0)) with (snd (SelectStack o n p w0)).
  change (calls (selectStack ?o ?n ?p ?w0))
    with [CallSelectStack n p (error_of (fst (SelectStack o n p w0)))].
  destruct (fst (SelectStack _ _ _ w)) as [stack|e] eqn:Hsel.
  2:{ apply wp_ret. apply ER_select_failed. exact Hsel. }
  apply wp_bind, wp_run.
  destruct (outcome (GetCheckpointForVersion json stack _ _)) as [tgt|e] eqn:Hcp.
  2:{ apply wp_ret. rewrite app_nil_r.
      apply (ER_checkpoint_failed _ _ _ _ stack e Hsel Hcp). }
  apply wp_bind, wp_run.
  change (outcome (stackImport ?s ?d ?w0)) with (fst (Import s d w0)).
  change (final (stackImport ?s ?d ?w0)) with (snd (Import s d w0)).
  change (calls (stackImport ?s ?d ?w0)) with [CallImport d (fst (Import s d w0))].
  destruct (fst (Import stack tgt _)) as [e|] eqn:Himp.
  { apply wp_ret. rewrite app_nil_r.
    apply (ER_import_failed _ _ _ _ stack tgt e Hsel Hcp Himp). }
  apply wp_bind, wp_emit.
  apply wp_bind, wp_run.
  change (outcome (stackRefresh ?s ?o ?w0)) with (fst (Refresh s o w0)).
  change (final (stackRefresh ?s ?o ?w0)) with (snd (Refresh s o w0)).
  change (calls (stackRefresh ?s ?o ?w0)) with [CallRefresh o (fst (Refresh s o w0))].
  destruct (fst (Refresh stack [] _)) as [refreshed|e] eqn:Href.
  2:{ apply wp_ret. rewrite app_nil_r.
      apply (ER_refresh_failed _ _ _ _ stack tgt e Hsel Hcp Himp Href). }
  apply wp_bind, wp_emit.
  apply wp_bind, wp_run.
  change (outcome (stackUp ?s ?o ?w0)) with (fst (Up s o w0)).
  change (final (stackUp ?s ?o ?w0)) with (snd (Up s o w0)).
  change (calls (stackUp ?s ?o ?w0)) with [CallUp o (fst (Up s o w0))].
  destruct (fst (Up stack _ _)) as [result|e] eqn:Hup; apply wp_ret; rewrite app_nil_r.
  - apply (ER_applied _ _ _ _ stack tgt refreshed result Hsel Hcp Himp Href Hup).
  - apply (ER_up_failed _ _ _ _ stack tgt refreshed e Hsel Hcp Himp Href Hup).
Qed.

Lemma retrieval_only_reads (stack : RollbackStack W) (version : Z) (w : W) (e : Event) :
  In e (calls (GetCheckpointForVersion json stack version w)) -> read_only e = true.
Proof.
  pose proof (GetCheckpointForVersion_path stack version w) as Hp.
  cbv zeta in Hp. intros Hin.
  destruct Hp; cbn [In] in Hin;
    repeat (destruct Hin as [<-|Hin]; [reflexivity|]); contradiction.
Qed.

(** An [Up] that succeeded in the log is the [Up] of the selected stack,
    called once the import and the refresh went through, and the run ends
    in the world it left. *)
Lemma ExecuteRollback_up_in_the_log
  (opts : RollbackOptions W) (w : W) o (result : UpResult) :
  let r := ExecuteRollback json DefaultOperator opts w in
  In (CallUp o (Ok result)) (calls r) ->
  exists stack tgt refreshed,
    fst (the_selection DefaultOperator opts w) = Ok stack
    /\ outcome (the_retrieval json DefaultOperator opts w stack) = Ok tgt
    /\ fst (the_import json DefaultOperator opts w stack tgt) = None
    /\ fst (the_refresh json DefaultOperator opts w stack tgt) = Ok refreshed
    /\ fst (the_up json DefaultOperator opts w stack tgt) = Ok result
    /\ o = upOpts opts
    /\ final r = snd (the_up json DefaultOperator opts w stack tgt).
Proof.
  cbv zeta.
  destruct (ExecuteRollback_run opts w)
    as [e Hsel|stack e Hsel Hcp|stack tgt e Hsel Hcp Himp
        |stack tgt e Hsel Hcp Himp Href
        |stack tgt refreshed e Hsel Hcp Himp Href Hup
        |stack tgt refreshed result' Hsel Hcp Himp Href Hup];
    unfold selected, refreshing, applying;
    change (calls {| outcome := ?a; final := ?b; calls := ?c |}) with c;
    change (final {| outcome := ?a; final := ?b; calls := ?c |}) with b;
    intros Hin;
    (destruct Hin as [Hin|Hin]; [discriminate Hin|]).
  - destruct Hin.
  - apply retrieval_only_reads in Hin. discriminate Hin.
  - apply in_app_or in Hin. destruct Hin as [Hin|Hin];
      [apply retrieval_only_reads in Hin; discriminate Hin|].
    cbn [In] in Hin. repeat (destruct Hin as [Hin|Hin]; [discriminate Hin|]).
    destruct Hin.
  - apply in_app_or in Hin. destruct Hin as [Hin|Hin];
      [apply retrieval_only_reads in Hin; discriminate Hin|].
    cbn [In] in Hin. repeat (destruct Hin as [Hin|Hin]; [discriminate Hin|]).
    destruct Hin.
  - apply in_app_or in Hin. destruct Hin as [Hin|Hin];
      [apply retrieval_only_reads in Hin; discriminate Hin|].
    cbn [In] in Hin. repeat (destruct Hin as [Hin|Hin]; [discriminate Hin|]).
    destruct Hin.
  - apply in_app_or in Hin. destruct Hin as [Hin|Hin];
      [apply retrieval_only_reads in Hin; discriminate Hin|].
    cbn [In] in Hin. do 4 (destruct Hin as [Hin|Hin]; [discriminate Hin|]).
    destruct Hin as [Hin|[]]. injection Hin as <- <-.
    exists stack, tgt, refreshed. repeat split; assumption || reflexivity.
Qed.

(** C2. In the preview flow, on every run on which the import of the target
    checkpoint succeeded, [Import] is called on the selected stack exactly
    twice: first with the target checkpoint, then with the current state
    exported at the start, whatever [Preview] returned in between.  The
    whole log is given, each entry with what the stack returned to that
    call, and the run ends in the world the restoring [Import] left.  The
    runs concerned are those whose log starts its imports with a successful
    one. *)
Theorem PreviewRollback_imports_exactly_twice
  (opts : RollbackOptions W) (w : W) (tgt : UntypedDeployment) :
  let r := PreviewRollback json DefaultOperator opts w in
  (forall stack cur,
     target_imported json DefaultOperator opts w stack cur tgt ->
     let previewed := the_preview json DefaultOperator opts w stack tgt in
     let restored := the_restore json DefaultOperator opts w stack cur tgt in
     (exists h,
        calls r = [selected opts None; CallExport (Ok cur);
                   CallHistory 0 0 (Ok h); CallExport (Ok tgt);
                   CallImport tgt None;
                   CallPreview (previewOpts opts) (fst previewed);
                   CallImport cur (fst restored)]
                  ++ restore_warning opts (fst restored))
     /\ imports (calls r) = [(tgt, None); (cur, fst restored)]
     /\ length (List.filter is_Import (calls r)) = 2%nat
     /\ final r = snd restored)
  /\ (hd_error (imports (calls r)) = Some (tgt, None) ->
      exists stack cur, target_imported json DefaultOperator opts w stack cur tgt).
Proof.
  intros r. split; [|apply PreviewRollback_first_import].
  intros stack cur Hreach previewed restored. subst r.
  rewrite (PreviewRollback_after_the_target_import opts w stack cur tgt Hreach).
  cbn [calls final]. fold previewed restored.
  destruct Hreach as (_ & _ & Hcp & _).
  destruct (the_checkpoint_found stack _ _ tgt Hcp) as [h Hlog].
  unfold the_checkpoint. rewrite Hlog. unfold selected. cbn [app].
  split; [exists h; reflexivity|].
  destruct (fst restored); repeat split; reflexivity.
Qed.

(** C4. In the preview flow, when [Preview] succeeds on the stack and the
    restoring [Import] of the state exported at the start fails,
    [PreviewRollback] still returns the successful result with the resource
    changes of the preview; the restore failure is the warning written last
    to the output sink, the only text written, and is not returned.  The
    run ends in the world the failed restoring [Import] left. *)
Theorem PreviewRollback_restore_failure_is_a_warning
  (opts : RollbackOptions W) (w : W) (stack : RollbackStack W)
  (cur tgt : UntypedDeployment) (result : PreviewResult) (restoreErr : error) :
  let r := PreviewRollback json DefaultOperator opts w in
  target_imported json DefaultOperator opts w stack cur tgt ->
  fst (the_preview json DefaultOperator opts w stack tgt) = Ok result ->
  fst (the_restore json DefaultOperator opts w stack cur tgt) = Some restoreErr ->
  outcome r
  = Ok {| Success := true;
          Message := "Preview of rollback to version "
                     +:+ itoa (TargetVersion opts) +:+ " completed";
          ResourceChanges := default ∅ (pr_ChangeSummary result);
          Stdout := pr_StdOut result;
          Stderr := pr_StdErr result |}
  /\ imports (calls r) = [(tgt, None); (cur, Some restoreErr)]
  /\ last (calls r)
     = Some (Fprintf (outputOf opts)
               ("Warning: failed to restore current state: "
                +:+ Error restoreErr +:+ LF))
  /\ written (outputOf opts) (calls r)
     = "Warning: failed to restore current state: " +:+ Error restoreErr +:+ LF
  /\ final r = snd (the_restore json DefaultOperator opts w stack cur tgt).
Proof.
  intros r Hreach Hprev Hrest. subst r.
  rewrite (PreviewRollback_after_the_target_import opts w stack cur tgt Hreach).
  cbn [outcome calls final]. rewrite Hprev, Hrest.
  destruct Hreach as (_ & _ & Hcp & _).
  destruct (the_checkpoint_found stack _ _ tgt Hcp) as [h Hlog].
  unfold the_checkpoint. rewrite Hlog.
  unfold selected, restore_warning, preview_outcome, convertOpTypeChangeSummary.
  cbn [app imports written].
  rewrite Writer_eqb_refl, append_empty_r.
  repeat split; try reflexivity.
  destruct (pr_ChangeSummary result) as [m|]; cbn [default];
    [rewrite copy_into_empty|]; reflexivity.
Qed.

(** C5. In the preview flow, when [Preview] fails on the stack with [err],
    the restoring [Import] of the state exported at the start is still
    called on the stack, right after the preview, and the run ends in the
    world it left; the error returned is [err] wrapped as a preview
    failure, whatever the restoring [Import] returned. *)
Theorem PreviewRollback_preview_error_is_returned
  (opts : RollbackOptions W) (w : W) (stack : RollbackStack W)
  (cur tgt : UntypedDeployment) (err : error) :
  let r := PreviewRollback json DefaultOperator opts w in
  let restored := the_restore json DefaultOperator opts w stack cur tgt in
  target_imported json DefaultOperator opts w stack cur tgt ->
  fst (the_preview json DefaultOperator opts w stack tgt) = Err err ->
  outcome r = Err (wrapError ("preview failed: " +:+ Error err) err)
  /\ hd_error (exports (calls r)) = Some (Ok cur)
  /\ imports (calls r) = [(tgt, None); (cur, fst restored)]
  /\ (exists before,
        calls r = before
                  ++ [CallPreview (previewOpts opts) (Err err);
                      CallImport cur (fst restored)]
                  ++ restore_warning opts (fst restored))
  /\ final r = snd restored.
Proof.
  intros r restored Hreach Hprev. subst r.
  rewrite (PreviewRollback_after_the_target_import opts w stack cur tgt Hreach).
  cbn [outcome calls final]. rewrite Hprev. fold restored.
  destruct Hreach as (_ & _ & Hcp & _).
  destruct (the_checkpoint_found stack _ _ tgt Hcp) as [h Hlog].
  unfold the_checkpoint. rewrite Hlog. unfold selected. cbn [app exports hd_error].
  split; [reflexivity|]. split; [reflexivity|].
  split; [destruct (fst restored); reflexivity|].
  split; [|reflexivity].
  eexists [_; _; _; _; _]. reflexivity.
Qed.

(** The failures of the preview flow ahead of the target import. *)









(** C10. Checkpoint retrieval calls only [History] and [Export], on every
    path: its log holds no [Import], [Refresh] or [Up], and on a backend
    whose [History] and [Export] leave the world as it is the retrieval
    leaves it unchanged too. *)
Theorem GetCheckpointForVersion_only_reads
  (stack : RollbackStack W) (version : Z) (w : W) :
  let r := GetCheckpointForVersion json stack version w in
  Forall (fun e => read_only e = true) (calls r)
  /\ List.filter mutating (calls r) = []
  /\ ((forall ps pg w', snd (History stack ps pg w') = w') ->
      (forall w', snd (Export stack w') = w') ->
      final r = w).
Proof.
  intros r. split; [|split].
  - pose proof (GetCheckpointForVersion_path stack version w) as Hp.
    cbv zeta in Hp. fold r in Hp.
    destruct Hp; repeat constructor.
  - pose proof (GetCheckpointForVersion_path stack version w) as Hp.
    cbv zeta in Hp. fold r in Hp.
    destruct Hp; reflexivity.
  - intros Hh He. subst r.
    unfold GetCheckpointForVersion.
    rewrite bind_final, stackHistory_run. cbn [outcome final]. rewrite Hh.
    destruct (fst (History stack 0 0 w)) as [h|e]; [|reflexivity].
    destruct (VersionExistsInHistory h version); cbn [negb]; [|reflexivity].
    rewrite bind_final, stackExport_run. cbn [outcome final]. rewrite He.
    destruct (fst (Export stack w)) as [d|e]; [|reflexivity].
    destruct (ValidateDeployment json d); reflexivity.
Qed.

(** What [GetCheckpointForVersion] returns is what [Export] returned, for
    every version found in the history. *)
Lemma GetCheckpointForVersion_is_the_export
  (stack : RollbackStack W) (version : Z) (w : W) (d : UntypedDeployment) :
  outcome (GetCheckpointForVersion json stack version w) = Ok d ->
  fst (Export stack (snd (History stack 0 0 w))) = Ok d.
Proof.
  unfold GetCheckpointForVersion.
  rewrite bind_outcome, stackHistory_run. cbn [outcome final].
  destruct (fst (History stack 0 0 w)) as [h|e]; [|discriminate].
  destruct (VersionExistsInHistory h version); cbn [negb]; [|discriminate].
  rewrite bind_outcome, stackExport_run. cbn [outcome final].
  destruct (fst (Export stack _)) as [d'|e]; [|discriminate].
  destruct (ValidateDeployment json d'); [discriminate|]. intros [= ->]. reflexivity.
Qed.

(** The version asked for only decides whether the retrieval fails: two
    versions of the history get the same snapshot. *)
Lemma GetCheckpointForVersion_ignores_the_version
  (stack : RollbackStack W) (v1 v2 : Z) (w : W) (d : UntypedDeployment) :
  outcome (GetCheckpointForVersion json stack v1 w) = Ok d ->
  is_Ok (outcome (GetCheckpointForVersion json stack v2 w)) = true ->
  outcome (GetCheckpointForVersion json stack v2 w) = Ok d.
Proof.
  intros H1 H2. apply GetCheckpointForVersion_is_the_export in H1.
  destruct (outcome (GetCheckpointForVersion json stack v2 w)) as [d'|e] eqn:E;
    [|discriminate].
  apply GetCheckpointForVersion_is_the_export in E. congruence.
Qed.

End Flows.

(** *** The theorems on the test doubles *)

Lemma PreviewRollback_imports_exactly_twice_witness :
  target_imported mock.json_Unmarshal_object mock.default_operator
    (mock.options 1 (mock.operator_returning mock.preview_error_stack)) 0%nat
    (mock.RollbackStack_of mock.preview_error_stack)
    (mock.document "{}") (mock.document "{}")
  /\ imports (calls (mock.preview 1 mock.preview_error_stack))
     = [(mock.document "{}", None); (mock.document "{}", None)]
  /\ final (mock.preview 1 mock.preview_error_stack) = 2%nat.
Proof.
  assert (Hreach : target_imported mock.json_Unmarshal_object mock.default_operator
            (mock.options 1 (mock.operator_returning mock.preview_error_stack)) 0%nat
            (mock.RollbackStack_of mock.preview_error_stack)
            (mock.document "{}") (mock.document "{}"))
    by (repeat split; reflexivity).
  split; [exact Hreach|].
  destruct (proj1 (PreviewRollback_imports_exactly_twice mock.json_Unmarshal_object
              mock.default_operator
              (mock.options 1 (mock.operator_returning mock.preview_error_stack))
              0%nat (mock.document "{}")) _ _ Hreach)
    as (_ & Himp & _ & Hfin).
  split; [exact Himp | exact Hfin].
Defined.

Lemma PreviewRollback_restore_failure_is_a_warning_witness :
  outcome (mock.preview 1 mock.restore_error_stack)
  = Ok {| Success := true;
          Message := "Preview of rollback to version 1 completed";
          ResourceChanges := {[ "create" := 1 ]};
          Stdout := "preview output";
          Stderr := EmptyString |}
  /\ written (UserWriter 0) (calls (mock.preview 1 mock.restore_error_stack))
     = "Warning: failed to restore current state: restore failed" +:+ LF
  /\ final (mock.preview 1 mock.restore_error_stack) = 2%nat.
Proof.
  destruct (PreviewRollback_restore_failure_is_a_warning
              mock.json_Unmarshal_object mock.default_operator
              (mock.options 1 (mock.operator_returning mock.restore_error_stack))
              0%nat (mock.RollbackStack_of mock.restore_error_stack)
              (mock.document "{}") (mock.document "{}")
              mock.one_create (errorString "restore failed"))
    as (Ho & _ & _ & Hw & Hfin).
  - repeat split; reflexivity.
  - reflexivity.
  - reflexivity.
  - split; [exact Ho|]. split; [exact Hw | exact Hfin].
Defined.

Lemma PreviewRollback_preview_error_is_returned_witness :
  outcome (mock.preview 1 mock.preview_error_stack)
  = Err (wrapError "preview failed: preview failed" (errorString "preview failed"))
  /\ imports (calls (mock.preview 1 mock.preview_error_stack))
     = [(mock.document "{}", None); (mock.document "{}", None)]
  /\ final (mock.preview 1 mock.preview_error_stack) = 2%nat.
Proof.
  destruct (PreviewRollback_preview_error_is_returned
              mock.json_Unmarshal_object mock.default_operator
              (mock.options 1 (mock.operator_returning mock.preview_error_stack))
              0%nat (mock.RollbackStack_of mock.preview_error_stack)
              (mock.document "{}") (mock.document "{}")
              (errorString "preview failed"))
    as (Ho & _ & Himp & _ & Hfin).
  - repeat split; reflexivity.
  - reflexivity.
  - split; [exact Ho|]. split; [exact Himp | exact Hfin].
Defined.




Lemma GetCheckpointForVersion_only_reads_witness :
  (forall ps pg w', snd (History mock.memory_stack ps pg w') = w')
  /\ (forall w', snd (Export mock.memory_stack w') = w')
  /\ final (GetCheckpointForVersion mock.json_Unmarshal_object
              mock.memory_stack 1 mock.two_deployments)
     = mock.two_deployments.
Proof.
  split; [reflexivity|]. split; [reflexivity|].
  exact (proj2 (proj2 (GetCheckpointForVersion_only_reads
                         mock.json_Unmarshal_object mock.memory_stack 1
                         mock.two_deployments))
           (fun _ _ _ => eq_refl) (fun _ => eq_refl)).
Defined.

(** C1 (the code departs from it).  On a backend that keeps the checkpoint
    of every deployment, with version 1 (one resource) followed by version
    2 (two resources, the committed state), retrieving the checkpoint of
    version 1 succeeds and returns the committed state of version 2, not
    the checkpoint stored for version 1. *)
Theorem GetCheckpointForVersion_returns_the_current_state :
  VersionExistsInHistory (map fst (mock.deployments mock.two_deployments)) 1 = true
  /\ mock.checkpoint_of (mock.deployments mock.two_deployments) 1
     = Some (mock.document (mock.object1 "resources" 1))
  /\ outcome (GetCheckpointForVersion mock.json_Unmarshal_object
                mock.memory_stack 1 mock.two_deployments)
     = Ok (mock.committed mock.two_deployments)
  /\ mock.committed mock.two_deployments
     <> mock.document (mock.object1 "resources" 1).
Proof. repeat split; try reflexivity. vm_compute. discriminate. Qed.

End rollback_properties.

(** ** The commands *)

Module cmd_properties.
Import golang cmd runs.

Section Commands.

Context {W : Type} {Time : Type}.
Variable Time_zero : Time.
Variable time_Parse_RFC3339 : string -> result Time.
Variable Time_IsZero : Time -> bool.
Variable Time_Format : Time -> string -> string.
Variable os_Getenv : string -> string.
Variable strings_TrimSpace : string -> string.
Variable strings_ToLower : string -> string.
Variable stdin_ReadString : W -> result string * W.
Variable json_Unmarshal_object : string -> option error.
Variable DefaultSelector : history.StackSelector W.
Variable DefaultOperator : rollback.StackOperator W.
Variable flags : Flags.

Lemma history_selectStack_run (selector : history.StackSelector W) n p w :
  history.selectStack selector n p w
  = {| outcome := fst (history.SelectStack selector n p w);
       final := snd (history.SelectStack selector n p w);
       calls := [CallSelectStack n p
                   (error_of (fst (history.SelectStack selector n p w)))] |}.
Proof. reflexivity. Qed.

Lemma history_stackHistory_run (stack : history.Stack W) ps pg w :
  history.stackHistory stack ps pg w
  = {| outcome := fst (history.History stack ps pg w);
       final := snd (history.History stack ps pg w);
       calls := [CallHistory ps pg (fst (history.History stack ps pg w))] |}.
Proof. reflexivity. Qed.

(** Fetching the history only selects the stack and lists its history. *)
Lemma GetStackHistoryWithSelector_calls projectPath stackName selector (w : W) :
  let r := history.GetStackHistoryWithSelector Time_zero time_Parse_RFC3339
             projectPath stackName selector w in
  (exists e, calls r = [CallSelectStack stackName projectPath (Some e)])
  \/ (exists h, calls r = [CallSelectStack stackName projectPath None;
                           CallHistory 0 0 h]).
Proof.
  cbv zeta. unfold history.GetStackHistoryWithSelector.
  rewrite bind_calls, history_selectStack_run. cbn [outcome final calls].
  destruct (fst (history.SelectStack selector stackName projectPath w))
    as [stack|e]; [right | left; eexists; reflexivity].
  rewrite bind_calls, history_stackHistory_run. cbn [outcome final calls].
  destruct (fst (history.History stack 0 0 _)); eexists; reflexivity.
Qed.

Lemma GetStackHistoryWithSelector_reads projectPath stackName selector (w : W) :
  List.filter mutating
    (calls (history.GetStackHistoryWithSelector Time_zero time_Parse_RFC3339
              projectPath stackName selector w)) = [].
Proof.
  destruct (GetStackHistoryWithSelector_calls projectPath stackName selector w)
    as [[e ->]|[h ->]]; reflexivity.
Qed.

Lemma GetUpdateByVersion_reads projectPath stackName version (w : W) :
  List.filter mutating
    (calls (history.GetUpdateByVersion Time_zero time_Parse_RFC3339
              DefaultSelector projectPath stackName version w)) = [].
Proof.
  unfold history.GetUpdateByVersion, history.GetUpdateByVersionWithSelector.
  rewrite bind_calls, mutating_app, GetStackHistoryWithSelector_reads.
  destruct (outcome _); reflexivity.
Qed.

Lemma GetLatestVersion_reads projectPath stackName (w : W) :
  List.filter mutating
    (calls (history.GetLatestVersion Time_zero time_Parse_RFC3339
              DefaultSelector projectPath stackName w)) = [].
Proof.
  unfold history.GetLatestVersion, history.GetLatestVersionWithSelector.
  rewrite bind_calls, mutating_app, GetStackHistoryWithSelector_reads.
  destruct (outcome _); reflexivity.
Qed.

(** C7. When the stack name is known, the requested version is found in
    the history and it equals the latest version, the command [to] returns
    no error, prints that no rollback is needed and does nothing else: after
    the two history fetches the log holds that message only, so no [Import],
    [Refresh] or [Up] is made and [ExecuteRollback] is not entered. *)
Theorem runRollback_to_latest_is_a_noop (w : W) (stack : string)
  (update : history.UpdateInfo Time) :
  let version := rollbackVersion flags in
  let found :=
    history.GetUpdateByVersion Time_zero time_Parse_RFC3339 DefaultSelector
      (getProjectPath flags) stack version w in
  let latest :=
    history.GetLatestVersion Time_zero time_Parse_RFC3339 DefaultSelector
      (getProjectPath flags) stack (final found) in
  let r :=
    runRollback Time_zero time_Parse_RFC3339 Time_IsZero Time_Format os_Getenv
      strings_TrimSpace strings_ToLower stdin_ReadString json_Unmarshal_object
      DefaultSelector DefaultOperator flags w in
  getStackName os_Getenv flags = Ok stack ->
  outcome found = Ok update ->
  outcome latest = Ok version ->
  outcome r = None
  /\ calls r
     = calls found ++ calls latest
       ++ [Fprintf os_Stdout
             ("Version " +:+ itoa version
              +:+ " is the current version. No rollback needed." +:+ LF)]
  /\ List.filter mutating (calls r) = []
  /\ final r = final latest.
Proof.
  intros version found latest r Hname Hfound Hlatest.
  subst r. unfold runRollback. rewrite Hname.
  fold version.
  rewrite bind_outcome, bind_calls, bind_final. fold found. rewrite Hfound.
  rewrite bind_outcome, bind_calls, bind_final. fold latest. rewrite Hlatest.
  rewrite Z.eqb_refl.
  split; [reflexivity|]. split; [reflexivity|]. split; [|reflexivity].
  rewrite !mutating_app.
  subst found latest. rewrite GetUpdateByVersion_reads, GetLatestVersion_reads.
  reflexivity.
Qed.


End Commands.

(** The command [to --stack dev --version 5] on a history of versions 5, 2
    and 1, most recent first. *)
Lemma runRollback_to_latest_is_a_noop_witness :
  outcome (mock.runRollback_on mock.history_5_2_1 (mock.flags_to "dev" 5)) = None
  /\ List.filter mutating
       (calls (mock.runRollback_on mock.history_5_2_1 (mock.flags_to "dev" 5))) = []
  /\ written os_Stdout
       (calls (mock.runRollback_on mock.history_5_2_1 (mock.flags_to "dev" 5)))
     = "Version 5 is the current version. No rollback needed." +:+ LF.
Proof.
  destruct (runRollback_to_latest_is_a_noop (W := nat) (Time := string)
              EmptyString (fun s => Ok s)
              (fun t => String.eqb t EmptyString) (fun t _ => t)
              (fun _ => EmptyString) (fun s => s) (fun s => s)
              mock.stdin_closed mock.json_Unmarshal_object
              mock.history_5_2_1 mock.default_operator
              (mock.flags_to "dev" 5) 0%nat "dev"
              (history.convertUpdate EmptyString (fun s => Ok s) (mock.version 5))
              eq_refl eq_refl eq_refl) as (Ho & Hc & Hm & _).
  split; [exact Ho|]. split; [exact Hm|].
  unfold mock.runRollback_on. rewrite Hc. reflexivity.
Defined.

(** The latest version is the version of the first record whatever the
    order: on the same history listed oldest first it is 1, not 5. *)
Example latest_of_an_oldest_first_history :
  history.GetLatestVersionFromHistory
    (history.ConvertUpdates EmptyString (fun s => Ok s)
       [mock.version 1; mock.version 2; mock.version 5]) "dev" = Ok 1.
Proof. reflexivity. Qed.

(** [ExecuteRollback] itself has no such check: called with the latest
    version (as the tests of the package do) it imports, refreshes and
    applies. *)
Example ExecuteRollback_does_not_compare_with_latest :
  List.filter mutating (calls (mock.execute 1 mock.MockRollbackStack_zero))
  = [CallImport (mock.document "{}") None;
     CallRefresh []
       (Ok {| rr_StdOut := EmptyString; rr_StdErr := EmptyString;
              rr_Summary := UpdateSummary_zero |});
     CallUp [opt_Message "Rollback to version 1"]
       (Ok {| ur_StdOut := EmptyString; ur_StdErr := EmptyString;
              ur_Summary := UpdateSummary_zero |})].
Proof. reflexivity. Qed.

End cmd_properties.

(** * More properties of the code *)

(** ** The versions before and after the interfaces *)

Module refactoring.
Import golang runs.

Section Refactoring.

Context {W : Type} {Time : Type}.
Variable Time_zero : Time.
Variable time_Parse_RFC3339 : string -> result Time.
Variable json : string -> option error.
Variable auto_SelectStackLocalSource :
  string -> string -> W -> result (auto.Stack W) * W.

Lemma findUpdate_FindUpdateByVersion (history : list (history.UpdateInfo Time)) v :
  history_2024.findUpdate history v = history.FindUpdateByVersion history v.
Proof. induction history as [|u h IH]; cbn; [|rewrite IH]; reflexivity. Qed.

Lemma found_VersionExistsInHistory (history : list UpdateSummary) v :
  rollback_2024.found history v = rollback.VersionExistsInHistory history v.
Proof. induction history as [|u h IH]; cbn; [|rewrite IH]; reflexivity. Qed.

Lemma GetStackHistory_same projectPath stackName (w : W) :
  history_2024.GetStackHistory Time_zero time_Parse_RFC3339
    auto_SelectStackLocalSource projectPath stackName w
  = history.GetStackHistory Time_zero time_Parse_RFC3339
      (adapters.DefaultStackSelector auto_SelectStackLocalSource)
      projectPath stackName w.
Proof.
  unfold history_2024.GetStackHistory, history.GetStackHistory,
    history.GetStackHistoryWithSelector.
  unfold history_2024.selectStackLocalSource, history.selectStack.
  unfold bind, call, emit, ret. cbn [outcome final calls history.SelectStack adapters.DefaultStackSelector fst snd].
  destruct (fst (auto_SelectStackLocalSource stackName projectPath w)); reflexivity.
Qed.

Lemma GetUpdateByVersion_same projectPath stackName version (w : W) :
  history_2024.GetUpdateByVersion Time_zero time_Parse_RFC3339
    auto_SelectStackLocalSource projectPath stackName version w
  = history.GetUpdateByVersion Time_zero time_Parse_RFC3339
      (adapters.DefaultStackSelector auto_SelectStackLocalSource)
      projectPath stackName version w.
Proof.
  unfold history_2024.GetUpdateByVersion, history.GetUpdateByVersion,
    history.GetUpdateByVersionWithSelector, bind.
  fold (history.GetStackHistory Time_zero time_Parse_RFC3339
          (adapters.DefaultStackSelector auto_SelectStackLocalSource)
          projectPath stackName).
  rewrite GetStackHistory_same.
  destruct (outcome (history.GetStackHistory _ _ _ _ _ w)) as [h|e];
    [|reflexivity].
  unfold ret. cbn [outcome final calls].
  now rewrite findUpdate_FindUpdateByVersion.
Qed.

Lemma GetLatestVersion_same projectPath stackName (w : W) :
  history_2024.GetLatestVersion Time_zero time_Parse_RFC3339
    auto_SelectStackLocalSource projectPath stackName w
  = history.GetLatestVersion Time_zero time_Parse_RFC3339
      (adapters.DefaultStackSelector auto_SelectStackLocalSource)
      projectPath stackName w.
Proof.
  unfold history_2024.GetLatestVersion, history.GetLatestVersion,
    history.GetLatestVersionWithSelector, bind.
  fold (history.GetStackHistory Time_zero time_Parse_RFC3339
          (adapters.DefaultStackSelector auto_SelectStackLocalSource)
          projectPath stackName).
  rewrite GetStackHistory_same.
  destruct (outcome (history.GetStackHistory _ _ _ _ _ w)) as [[|first rest]|e];
    reflexivity.
Qed.

Lemma getCheckpointForVersion_same (stack : auto.Stack W) version (w : W) :
  rollback_2024.getCheckpointForVersion json stack version w
  = rollback.GetCheckpointForVersion json (adapters.RealRollbackStack stack)
      version w.
Proof. reflexivity. Qed.

Lemma selectStack_same n p (w : W) :
  rollback.selectStack (adapters.DefaultStackOperator auto_SelectStackLocalSource) n p w
  = {| outcome :=
         match outcome (rollback_2024.selectStackLocalSource
                          auto_SelectStackLocalSource n p w) with
         | Ok stack => Ok (adapters.RealRollbackStack stack)
         | Err e => Err e
         end;
       final := final (rollback_2024.selectStackLocalSource
                         auto_SelectStackLocalSource n p w);
       calls := calls (rollback_2024.selectStackLocalSource
                         auto_SelectStackLocalSource n p w) |}.
Proof.
  unfold rollback.selectStack, rollback_2024.selectStackLocalSource,
    bind, call, emit, ret.
  cbn [outcome final calls rollback.SelectStack adapters.DefaultStackOperator fst snd].
  destruct (fst (auto_SelectStackLocalSource n p w)); reflexivity.
Qed.

Lemma bind_eta {A B} (m : M W A) (k : A -> M W B) (w : W) :
  bind m k w
  = {| outcome := outcome (k (outcome (m w)) (final (m w)));
       final := final (k (outcome (m w)) (final (m w)));
       calls := calls (m w) ++ calls (k (outcome (m w)) (final (m w))) |}.
Proof. reflexivity. Qed.

Lemma PreviewRollback_same (opts : rollback_2024.RollbackOptions) (w : W)
  (DefaultOperator := adapters.DefaultStackOperator auto_SelectStackLocalSource) :
  rollback_2024.PreviewRollback json auto_SelectStackLocalSource opts w
  = rollback.PreviewRollback json DefaultOperator
      (rollback_2024.with_default_operator opts) w.
Proof.
  unfold rollback_2024.PreviewRollback, rollback.PreviewRollback.
  rewrite (bind_eta (rollback_2024.selectStackLocalSource _ _ _)).
  rewrite (bind_eta (rollback.selectStack _ _ _)).
  change (rollback.operatorOf DefaultOperator (rollback_2024.with_default_operator opts))
    with DefaultOperator.
  subst DefaultOperator.
  change (rollback.StackName (rollback_2024.with_default_operator opts))
    with (rollback_2024.StackName opts).
  change (rollback.ProjectPath (rollback_2024.with_default_operator opts))
    with (rollback_2024.ProjectPath opts).
  rewrite selectStack_same. cbn [outcome final calls].
  destruct (outcome (rollback_2024.selectStackLocalSource _ _ _ w)) as [stack|e];
    reflexivity.
Qed.

Lemma ExecuteRollback_same (opts : rollback_2024.RollbackOptions) (w : W)
  (DefaultOperator := adapters.DefaultStackOperator auto_SelectStackLocalSource) :
  rollback_2024.ExecuteRollback json auto_SelectStackLocalSource opts w
  = rollback.ExecuteRollback json DefaultOperator
      (rollback_2024.with_default_operator opts) w.
Proof.
  unfold rollback_2024.ExecuteRollback, rollback.ExecuteRollback.
  rewrite (bind_eta (rollback_2024.selectStackLocalSource _ _ _)).
  rewrite (bind_eta (rollback.selectStack _ _ _)).
  change (rollback.operatorOf DefaultOperator (rollback_2024.with_default_operator opts))
    with DefaultOperator.
  subst DefaultOperator.
  change (rollback.StackName (rollback_2024.with_default_operator opts))
    with (rollback_2024.StackName opts).
  change (rollback.ProjectPath (rollback_2024.with_default_operator opts))
    with (rollback_2024.ProjectPath opts).
  rewrite selectStack_same. cbn [outcome final calls].
  destruct (outcome (rollback_2024.selectStackLocalSource _ _ _ w)) as [stack|e];
    reflexivity.
Qed.

(** X7. The functions of [pkg/history/history.go], which call the
    automation API directly, run exactly as the later ones do on the default
    selector: same value, same world and same log, whatever the API does. *)
Theorem history_interfaces_preserve_runs projectPath stackName version (w : W)
  (DefaultSelector := adapters.DefaultStackSelector auto_SelectStackLocalSource) :
  history_2024.GetStackHistory Time_zero time_Parse_RFC3339
    auto_SelectStackLocalSource projectPath stackName w
  = history.GetStackHistory Time_zero time_Parse_RFC3339 DefaultSelector
      projectPath stackName w
  /\ history_2024.GetUpdateByVersion Time_zero time_Parse_RFC3339
       auto_SelectStackLocalSource projectPath stackName version w
     = history.GetUpdateByVersion Time_zero time_Parse_RFC3339 DefaultSelector
         projectPath stackName version w
  /\ history_2024.GetLatestVersion Time_zero time_Parse_RFC3339
       auto_SelectStackLocalSource projectPath stackName w
     = history.GetLatestVersion Time_zero time_Parse_RFC3339 DefaultSelector
         projectPath stackName w.
Proof.
  split; [apply GetStackHistory_same|].
  split; [apply GetUpdateByVersion_same | apply GetLatestVersion_same].
Qed.

(** X8. The earlier [PreviewRollback], [ExecuteRollback] and
    [getCheckpointForVersion] of [rollback.go], written against
    [auto.Stack], run exactly as the later ones do with no operator given
    and the default operator over the same API. *)
Theorem rollback_interfaces_preserve_runs
  (opts : rollback_2024.RollbackOptions) (stack : auto.Stack W) (version : Z) (w : W)
  (DefaultOperator := adapters.DefaultStackOperator auto_SelectStackLocalSource) :
  rollback_2024.PreviewRollback json auto_SelectStackLocalSource opts w
  = rollback.PreviewRollback json DefaultOperator
      (rollback_2024.with_default_operator opts) w
  /\ rollback_2024.ExecuteRollback json auto_SelectStackLocalSource opts w
     = rollback.ExecuteRollback json DefaultOperator
         (rollback_2024.with_default_operator opts) w
  /\ rollback_2024.getCheckpointForVersion json stack version w
     = rollback.GetCheckpointForVersion json (adapters.RealRollbackStack stack)
         version w.
Proof.
  split; [apply PreviewRollback_same|].
  split; [apply ExecuteRollback_same | apply getCheckpointForVersion_same].
Qed.

End Refactoring.
End refactoring.

(** ** More on the flows *)

Module rollback_more.
Import golang rollback steps runs logs.

Section Flows.

Context {W : Type}.
Variable json : string -> option error.
Variable DefaultOperator : StackOperator W.

Ltac unfold_events :=
  unfold selected, restore_warning, checkpoint_error, refreshing, applying in *.

Ltac list_facts :=
  cbn [imports exports app hd_error List.filter mutating is_Refresh_or_Up
       is_Preview is_Fprintf negb In outcome calls final] in *.

Ltac by_checkpoint_path :=
  repeat match goal with
  | H : checkpoint_path _ _ _ _ |- _ => inversion H; subst; clear H
  end.

Ltac in_cases H :=
  repeat (destruct H as [H|H]); try discriminate H; try contradiction.

Ltac follow path :=
  let Hp := fresh "Hp" in
  pose proof path as Hp; cbv zeta in Hp;
  match type of Hp with
  | _ (outcome ?run) (calls ?run) =>
      let out := fresh "out" in
      let wf := fresh "wf" in
      let log := fresh "log" in
      destruct run as [out wf log]
  end;
  cbn [outcome calls final] in *;
  destruct Hp; by_checkpoint_path; unfold_events; list_facts.


Lemma preview_flow_preview_failure (opts : RollbackOptions W) (w : W) o e :
  let r := PreviewRollback json DefaultOperator opts w in
  In (CallPreview o (Err e)) (calls r) ->
  outcome r = Err (wrapError ("preview failed: " +:+ Error e) e).
Proof.
  intros r Hin. subst r. revert Hin.
  follow (rollback_properties.PreviewRollback_path json DefaultOperator opts w);
    intros Hin; in_cases Hin.
  - injection Hin as _ ->. reflexivity.
  - destruct restoreErr; cbn [In] in Hin; in_cases Hin.
Qed.

Lemma execute_flow_up_failure (opts : RollbackOptions W) (w : W) o e :
  let r := ExecuteRollback json DefaultOperator opts w in
  In (CallUp o (Err e)) (calls r) ->
  outcome r = Err (wrapError ("rollback failed: " +:+ Error e) e).
Proof.
  intros r Hin. subst r. revert Hin.
  follow (rollback_properties.ExecuteRollback_path json DefaultOperator opts w);
    intros Hin; in_cases Hin.
  injection Hin as _ ->. reflexivity.
Qed.



(** X11. All the preview flow ever writes to its output sink is the restore
    warning: the sink holds that warning when the second [Import] failed and
    nothing otherwise. *)
Theorem PreviewRollback_writes_only_the_restore_warning
  (opts : RollbackOptions W) (w : W) :
  let r := PreviewRollback json DefaultOperator opts w in
  written (outputOf opts) (calls r)
  = match imports (calls r) with
    | [_; (_, Some e)] =>
        "Warning: failed to restore current state: " +:+ Error e +:+ LF
    | _ => EmptyString
    end.
Proof.
  intros r. subst r.
  follow (rollback_properties.PreviewRollback_path json DefaultOperator opts w);
    try reflexivity.
  destruct restoreErr as [e|]; cbn [app imports written]; [|reflexivity].
  rewrite Writer_eqb_refl. apply append_empty_r.
Qed.

(** X12. In the execute flow, when [Up] succeeded the result is a success
    whose resource changes are those of the summary of [Up] (none when the
    summary has no map); the mutating calls were the import, the refresh and
    the up, in this order, and the sink holds the two progress lines.  The
    [Up] in the log is the one the selected stack answered, after the import
    of the retrieved checkpoint and the refresh went through on it, and the
    run ends in the world that [Up] left. *)
Theorem ExecuteRollback_applied
  (opts : RollbackOptions W) (w : W) o (result : UpResult) :
  let r := ExecuteRollback json DefaultOperator opts w in
  In (CallUp o (Ok result)) (calls r) ->
  outcome r
  = Ok {| Success := true;
          Message := "Successfully rolled back to version "
                     +:+ itoa (TargetVersion opts);
          ResourceChanges := default ∅ (us_ResourceChanges (ur_Summary result));
          Stdout := ur_StdOut result;
          Stderr := ur_StdErr result |}
  /\ (exists tgt refreshed,
        List.filter mutating (calls r)
        = [CallImport tgt None; CallRefresh [] (Ok refreshed); CallUp o (Ok result)])
  /\ written (outputOf opts) (calls r)
     = ("Refreshing stack to reconcile with target state..." +:+ LF)
       +:+ ("Applying rollback changes..." +:+ LF)
  /\ (exists stack tgt refreshed,
        fst (the_selection DefaultOperator opts w) = Ok stack
        /\ outcome (the_retrieval json DefaultOperator opts w stack) = Ok tgt
        /\ fst (the_import json DefaultOperator opts w stack tgt) = None
        /\ fst (the_refresh json DefaultOperator opts w stack tgt) = Ok refreshed
        /\ fst (the_up json DefaultOperator opts w stack tgt) = Ok result
        /\ o = upOpts opts
        /\ final r = snd (the_up json DefaultOperator opts w stack tgt)).
Proof.
  intros r Hup.
  assert (Hon : exists stack tgt refreshed,
             fst (the_selection DefaultOperator opts w) = Ok stack
             /\ outcome (the_retrieval json DefaultOperator opts w stack) = Ok tgt
             /\ fst (the_import json DefaultOperator opts w stack tgt) = None
             /\ fst (the_refresh json DefaultOperator opts w stack tgt) = Ok refreshed
             /\ fst (the_up json DefaultOperator opts w stack tgt) = Ok result
             /\ o = upOpts opts
             /\ final r = snd (the_up json DefaultOperator opts w stack tgt))
    by exact (rollback_properties.ExecuteRollback_up_in_the_log
                json DefaultOperator opts w o result Hup).
  subst r. revert Hup Hon.
  follow (rollback_properties.ExecuteRollback_path json DefaultOperator opts w);
    intros Hup Hon; in_cases Hup.
  injection Hup as <- ->. split; [|split; [|split]].
  - unfold execute_outcome.
    destruct (us_ResourceChanges (ur_Summary result)) as [m|]; cbn [default];
      [rewrite copy_into_empty|]; reflexivity.
  - do 2 eexists. reflexivity.
  - cbn [written]. rewrite !Writer_eqb_refl. now rewrite append_empty_r.
  - exact Hon.
Qed.



(** X15. [convertOpTypeChangeSummary] keeps the count of every operation,
    and turns a nil summary into the empty map. *)
Theorem convertOpTypeChangeSummary_keeps_counts (summary : option gomap) (k : string) :
  convertOpTypeChangeSummary summary !! k = summary ≫= (fun m => m !! k).
Proof.
  destruct summary as [m|]; cbn.
  - unfold convertOpTypeChangeSummary. now rewrite copy_into_empty.
  - apply lookup_empty.
Qed.

End Flows.


Lemma ExecuteRollback_applied_witness :
  In (CallUp [opt_Message "Rollback to version 1"] (Ok mock_more.two_created))
     (calls (mock.execute 1 mock_more.success_stack))
  /\ outcome (mock.execute 1 mock_more.success_stack)
     = Ok {| Success := true;
             Message := "Successfully rolled back to version 1";
             ResourceChanges := {[ "create" := 2 ]};
             Stdout := "up output";
             Stderr := EmptyString |}.
Proof.
  assert (Hup : In (CallUp [opt_Message "Rollback to version 1"]
                      (Ok mock_more.two_created))
                   (calls (mock.execute 1 mock_more.success_stack)))
    by (apply (nth_error_In _ 7%nat); reflexivity).
  split; [exact Hup|].
  exact (proj1 (ExecuteRollback_applied mock.json_Unmarshal_object
    mock.default_operator
    (mock.options 1 (mock.operator_returning mock_more.success_stack))
    0%nat _ _ Hup)).
Defined.



End rollback_more.

(** ** More on the history resolver *)

Module history_more.
Import golang history runs.

Section Resolver.

Context {W : Type} {Time : Type}.
Variable Time_zero : Time.
Variable time_Parse_RFC3339 : string -> result Time.

Local Abbreviation Convert := (ConvertUpdates Time_zero time_Parse_RFC3339).

(** X1. [ConvertUpdates] gives one record per summary, in the same order,
    with the version, kind, result and message of the summary, and with its
    resource changes (empty when the summary has none). *)
Theorem ConvertUpdates_keeps_the_records (history : list UpdateSummary) :
  length (Convert history) = length history
  /\ map Version (Convert history) = map us_Version history
  /\ map Kind (Convert history) = map us_Kind history
  /\ map Result (Convert history) = map us_Result history
  /\ map Message (Convert history) = map us_Message history
  /\ map ResourceChanges (Convert history)
     = map (fun u => default ∅ (us_ResourceChanges u)) history.
Proof.
  rewrite history_properties.ConvertUpdates_map.
  rewrite length_map, !map_map. repeat split.
  apply map_ext. intros u. unfold convertUpdate; cbn.
  destruct (us_ResourceChanges u); cbn; [apply copy_into_empty | reflexivity].
Qed.

(** X2. [ConvertUpdates] never fails on a timestamp: a start or end time
    that is absent, empty or refused by the parser becomes the zero time,
    and one that parses becomes the parsed time. *)
Theorem ConvertUpdates_tolerates_bad_times (history : list UpdateSummary) (i : nat)
  (update : UpdateSummary) :
  history !! i = Some update ->
  exists info,
    Convert history !! i = Some info
    /\ Version info = us_Version update
    /\ (forall t,
          us_StartTime update <> EmptyString ->
          time_Parse_RFC3339 (us_StartTime update) = Ok t ->
          StartTime info = t)
    /\ (us_StartTime update = EmptyString
        \/ is_Ok (time_Parse_RFC3339 (us_StartTime update)) = false ->
        StartTime info = Time_zero)
    /\ (forall s t,
          us_EndTime update = Some s -> s <> EmptyString ->
          time_Parse_RFC3339 s = Ok t ->
          EndTime info = t)
    /\ (us_EndTime update = None
        \/ us_EndTime update = Some EmptyString
        \/ (exists s, us_EndTime update = Some s
                      /\ is_Ok (time_Parse_RFC3339 s) = false) ->
        EndTime info = Time_zero).
Proof.
  intros Hi. rewrite history_properties.ConvertUpdates_map.
  eexists. rewrite list_lookup_fmap, Hi. split; [reflexivity|].
  split; [reflexivity|]. unfold convertUpdate. cbn [StartTime EndTime].
  repeat split.
  - intros t Hne Hp. apply String.eqb_neq in Hne. now rewrite Hne, Hp.
  - intros [He|Hp]; [now rewrite He|].
    destruct (String.eqb _ _); [reflexivity|].
    destruct (time_Parse_RFC3339 _); [discriminate | reflexivity].
  - intros s t -> Hne Hp. apply String.eqb_neq in Hne. now rewrite Hne, Hp.
  - intros [->|[->|(s & -> & Hp)]]; try reflexivity.
    destruct (String.eqb _ _); [reflexivity|].
    destruct (time_Parse_RFC3339 _); [discriminate | reflexivity].
Qed.

(** X3. The two lookups agree: [FindUpdateByVersion] on the converted
    history succeeds exactly when [VersionExistsInHistory] holds on the
    summaries it was converted from. *)
Theorem lookups_agree (history : list UpdateSummary) (v : Z) :
  is_Ok (FindUpdateByVersion (Convert history) v)
  = rollback.VersionExistsInHistory history v.
Proof.
  rewrite history_properties.ConvertUpdates_map.
  induction history as [|u h IH]; [reflexivity|].
  cbn [map FindUpdateByVersion rollback.VersionExistsInHistory].
  change (Version (convertUpdate Time_zero time_Parse_RFC3339 u)) with (us_Version u).
  destruct (us_Version u =? v); [reflexivity | exact IH].
Qed.

(** X4. When several records carry the version, [FindUpdateByVersion]
    returns the first of them in the order of the history. *)
Theorem FindUpdateByVersion_first_match
  (before after : list (UpdateInfo Time)) (update : UpdateInfo Time) (v : Z) :
  Forall (fun r => Version r <> v) before ->
  Version update = v ->
  FindUpdateByVersion (before ++ update :: after) v = Ok update.
Proof.
  intros Hb Hv. induction Hb as [|r before Hr _ IH]; cbn [app FindUpdateByVersion].
  - now rewrite (proj2 (Z.eqb_eq _ _) Hv).
  - now rewrite (proj2 (Z.eqb_neq _ _) Hr).
Qed.

(** X5. On a history ordered most recent first, the version returned by
    [GetLatestVersionFromHistory] is the greatest version of the history. *)
Theorem GetLatestVersionFromHistory_is_the_greatest
  (history : list (UpdateInfo Time)) (stackName : string) (latest : Z) :
  StronglySorted (fun a b => Version b <= Version a) history ->
  GetLatestVersionFromHistory history stackName = Ok latest ->
  Forall (fun r => Version r <= latest) history
  /\ exists r, In r history /\ Version r = latest.
Proof.
  intros Hs Hl. destruct history as [|first rest]; [discriminate|].
  injection Hl as <-. split.
  - now apply (history_properties.first_version_is_greatest _ first rest).
  - exists first. split; [now left | reflexivity].
Qed.

(** X6. [GetStackHistoryWithSelector] either fails at the selection,
    without listing the history, or fails at the listing, or returns the
    converted history; it lists with page size 0 and page 0, and each
    failure is wrapped with its operation.  Which of the three it is, and
    the error or the history in it, is what the selector and then the
    selected stack returned; the run ends in the world the last of these
    calls left. *)
Theorem GetStackHistoryWithSelector_runs projectPath stackName
  (selector : StackSelector W) (w : W) :
  let r := GetStackHistoryWithSelector Time_zero time_Parse_RFC3339
             projectPath stackName selector w in
  let selection := SelectStack selector stackName projectPath w in
  (exists e,
     outcome r = Err (wrapError (("failed to select stack " +:+ stackName +:+ ": ")
                                 +:+ Error e) e)
     /\ calls r = [CallSelectStack stackName projectPath (Some e)]
     /\ fst selection = Err e
     /\ final r = snd selection)
  \/ (exists e,
        outcome r = Err (wrapError ("failed to get stack history: " +:+ Error e) e)
        /\ calls r = [CallSelectStack stackName projectPath None;
                      CallHistory 0 0 (Err e)]
        /\ exists stack,
             fst selection = Ok stack
             /\ History stack 0 0 (snd selection) = (Err e, final r))
  \/ (exists h,
        outcome r = Ok (Convert h)
        /\ calls r = [CallSelectStack stackName projectPath None;
                      CallHistory 0 0 (Ok h)]
        /\ exists stack,
             fst selection = Ok stack
             /\ History stack 0 0 (snd selection) = (Ok h, final r)).
Proof.
  cbv zeta. unfold GetStackHistoryWithSelector.
  rewrite bind_outcome, bind_calls, bind_final, cmd_properties.history_selectStack_run.
  cbn [outcome final calls].
  destruct (fst (SelectStack selector stackName projectPath w)) as [stack|e] eqn:Hsel.
  - right.
    rewrite bind_outcome, bind_calls, bind_final, cmd_properties.history_stackHistory_run.
    cbn [outcome final calls].
    destruct (History stack 0 0 _) as [[h|e] w1] eqn:Hh; cbn [fst snd];
      [right|left]; eexists;
      (split; [reflexivity|]); (split; [reflexivity|]);
      exists stack; (split; [reflexivity|]); exact Hh.
  - left. eexists. repeat split; reflexivity.
Qed.

End Resolver.

Lemma ConvertUpdates_tolerates_bad_times_witness :
  exists info,
    ConvertUpdates EmptyString mock_more.parse_time [mock_more.badly_timed] !! 0%nat
    = Some info
    /\ StartTime info = EmptyString /\ EndTime info = EmptyString.
Proof.
  destruct (ConvertUpdates_tolerates_bad_times EmptyString mock_more.parse_time
              [mock_more.badly_timed] 0%nat mock_more.badly_timed eq_refl)
    as (info & Hi & _ & _ & Hs & _ & He).
  exists info. split; [exact Hi|]. split.
  - apply Hs. right. reflexivity.
  - apply He. right. left. reflexivity.
Defined.

Lemma FindUpdateByVersion_first_match_witness :
  FindUpdateByVersion
    [mock_more.info 1; mock_more.info 2; mock_more.info 2; mock_more.info 3] 2
  = Ok (mock_more.info 2).
Proof.
  apply (FindUpdateByVersion_first_match [mock_more.info 1]
           [mock_more.info 2; mock_more.info 3] (mock_more.info 2) 2).
  - constructor; [|constructor]. intros H. discriminate H.
  - reflexivity.
Defined.

Lemma GetLatestVersionFromHistory_is_the_greatest_witness :
  Forall (fun r => Version r <= 5)
    [mock_more.info 5; mock_more.info 2; mock_more.info 1].
Proof.
  apply (GetLatestVersionFromHistory_is_the_greatest
           [mock_more.info 5; mock_more.info 2; mock_more.info 1] "dev" 5).
  - repeat constructor; cbn; lia.
  - reflexivity.
Defined.

End history_more.

(** ** The helpers of the command [list] *)

Module list_properties.
Import golang cmd_list runs.

Lemma length_append (s1 s2 : string) :
  String.length (s1 +:+ s2) = (String.length s1 + String.length s2)%nat.
Proof.
  induction s1 as [|c s1 IH]; [reflexivity|].
  change (String c s1 +:+ s2) with (String c (s1 +:+ s2)).
  cbn [String.length]. now rewrite IH.
Qed.

Lemma length_substring_0 (s : string) (n : nat) :
  (n <= String.length s)%nat -> String.length (substring 0 n s) = n.
Proof.
  revert s. induction n as [|n IH]; intros s Hn.
  - destruct s; reflexivity.
  - destruct s as [|c s]; cbn [String.length] in Hn; [lia|].
    cbn [substring String.length]. rewrite IH; lia.
Qed.

(** X25. With a limit of at least 3, [truncateString] does not panic and its
    result has at most the limit in bytes: a string within the limit is
    returned as it is, a longer one is cut to exactly the limit, its last
    three bytes being the dots. *)
Theorem truncateString_fits (s : string) (maxLen : Z) :
  3 <= maxLen ->
  exists t,
    truncateString s maxLen = Some t
    /\ Z.of_nat (String.length t) <= maxLen
    /\ (Z.of_nat (String.length s) <= maxLen -> t = s)
    /\ (maxLen < Z.of_nat (String.length s) ->
        Z.of_nat (String.length t) = maxLen
        /\ t = substring 0 (Z.to_nat (maxLen - 3)) s +:+ "...").
Proof.
  intros Hmax. unfold truncateString, slice_to.
  destruct (Z.leb_spec (Z.of_nat (String.length s)) maxLen) as [Hle|Hgt].
  - exists s. split; [reflexivity|]. split; [lia|]. split; [reflexivity|]. lia.
  - replace ((0 <=? maxLen - 3) && (maxLen - 3 <=? Z.of_nat (String.length s)))
      with true by (symmetry; apply andb_true_iff; split; apply Z.leb_le; lia).
    eexists. split; [reflexivity|].
    assert (Hlen : Z.of_nat (String.length
                     (substring 0 (Z.to_nat (maxLen - 3)) s +:+ "...")) = maxLen).
    { rewrite length_append, length_substring_0 by lia. cbn [String.length]. lia. }
    split; [lia|]. split; [lia|]. intros _. split; [exact Hlen | reflexivity].
Qed.

(** X26. With a limit below 3, [truncateString] panics on every string
    longer than the limit: the slice bound is negative. *)
Theorem truncateString_panics_below_three (s : string) (maxLen : Z) :
  maxLen < 3 ->
  maxLen < Z.of_nat (String.length s) ->
  truncateString s maxLen = None.
Proof.
  intros Hmax Hlen. unfold truncateString, slice_to.
  destruct (Z.leb_spec (Z.of_nat (String.length s)) maxLen); [lia|].
  destruct (Z.leb_spec 0 (maxLen - 3)); [lia | reflexivity].
Qed.

Lemma count_empty k : count ∅ k = 0.
Proof. unfold count. now rewrite lookup_empty. Qed.

(** X27. [formatChanges] reads only the counts of create, update, delete
    and same: two maps that agree on these four are shown alike, whatever
    other keys they hold. *)
Theorem formatChanges_reads_four_counts (m1 m2 : gomap) :
  count m1 "create" = count m2 "create" ->
  count m1 "update" = count m2 "update" ->
  count m1 "delete" = count m2 "delete" ->
  count m1 "same" = count m2 "same" ->
  formatChanges m1 = formatChanges m2.
Proof.
  intros Hc Hu Hd Hs. unfold formatChanges.
  destruct (bool_decide_reflect (m1 = ∅)) as [->|_];
    destruct (bool_decide_reflect (m2 = ∅)) as [->|_]; [reflexivity | | |].
  - rewrite count_empty in Hc, Hu, Hd, Hs. now rewrite <- Hc, <- Hu, <- Hd, <- Hs.
  - rewrite count_empty in Hc, Hu, Hd, Hs. now rewrite Hc, Hu, Hd, Hs.
  - now rewrite Hc, Hu, Hd, Hs.
Qed.

Lemma count_delete_same (m : gomap) :
  count (delete "same" m) "create" = count m "create"
  /\ count (delete "same" m) "update" = count m "update"
  /\ count (delete "same" m) "delete" = count m "delete".
Proof.
  unfold count. rewrite !lookup_delete_ne; [repeat split | | |];
    intros H; discriminate H.
Qed.

(** X28. As soon as a create, update or delete count is positive,
    [formatChanges] leaves the count of unchanged resources out. *)
Theorem formatChanges_drops_same_when_something_changed (m : gomap) :
  0 < count m "create" \/ 0 < count m "update" \/ 0 < count m "delete" ->
  formatChanges m = formatChanges (delete "same" m).
Proof.
  intros Hpos. unfold formatChanges.
  assert (Hne : forall m' : gomap,
            0 < count m' "create" \/ 0 < count m' "update" \/ 0 < count m' "delete" ->
            m' <> ∅).
  { intros m' H ->. rewrite !count_empty in H. lia. }
  assert (Hpos' : 0 < count (delete "same" m) "create"
                  \/ 0 < count (delete "same" m) "update"
                  \/ 0 < count (delete "same" m) "delete")
    by (destruct (count_delete_same m) as (-> & -> & ->); exact Hpos).
  rewrite (bool_decide_eq_false_2 _ (Hne _ Hpos)).
  rewrite (bool_decide_eq_false_2 _ (Hne _ Hpos')).
  destruct (count_delete_same m) as (-> & -> & ->).
  destruct (Z.ltb_spec 0 (count m "create"));
    destruct (Z.ltb_spec 0 (count m "update"));
    destruct (Z.ltb_spec 0 (count m "delete")); try lia;
    cbn [app length Nat.eqb]; rewrite !andb_false_r; reflexivity.
Qed.

Lemma truncateString_fits_witness :
  truncateString "a long deployment message" 10 = Some "a long ...".
Proof.
  destruct (truncateString_fits "a long deployment message" 10 ltac:(lia))
    as (t & Ht & _ & _ & Hcut).
  rewrite Ht. f_equal. apply Hcut. cbn. lia.
Defined.

Lemma truncateString_panics_below_three_witness :
  truncateString "abcd" 2 = None.
Proof.
  apply truncateString_panics_below_three; [lia | cbn; lia].
Defined.

Lemma formatChanges_reads_four_counts_witness :
  formatChanges {[ "create" := 1; "replace" := 9 ]} = formatChanges {[ "create" := 1 ]}.
Proof. apply formatChanges_reads_four_counts; reflexivity. Defined.

Lemma formatChanges_drops_same_when_something_changed_witness :
  formatChanges {[ "create" := 3; "same" := 7 ]}
  = formatChanges (delete "same" ({[ "create" := 3; "same" := 7 ]} : gomap)).
Proof.
  apply formatChanges_drops_same_when_something_changed.
  left. vm_compute. reflexivity.
Defined.

(** What the two maps of the last example are shown as. *)
Example formatChanges_examples :
  formatChanges {[ "create" := 3; "same" := 7 ]} = "+3"
  /\ formatChanges {[ "create" := 3; "update" := 1; "delete" := 2 ]} = "+3 ~1 -2"
  /\ formatChanges {[ "same" := 7 ]} = "=7"
  /\ formatChanges ∅ = "-".
Proof. repeat split; reflexivity. Qed.

End list_properties.

(** ** The commands, path by path *)

Module commands.
Import golang cmd runs logs.

Section Commands.

Context {W : Type} {Time : Type}.
Variable Time_zero : Time.
Variable time_Parse_RFC3339 : string -> result Time.
Variable Time_IsZero : Time -> bool.
Variable Time_Format : Time -> string -> string.
Variable os_Getenv : string -> string.
Variable strings_TrimSpace : string -> string.
Variable strings_ToLower : string -> string.
Variable stdin_ReadString : W -> result string * W.
Variable json_Unmarshal_object : string -> option error.
Variable DefaultSelector : history.StackSelector W.
Variable DefaultOperator : rollback.StackOperator W.
Variable flags : Flags.
Variable listLimit : Z.
Variable tabwriter_format : string -> string.

Local Abbreviation run_to :=
  (runRollback Time_zero time_Parse_RFC3339 Time_IsZero Time_Format os_Getenv
     strings_TrimSpace strings_ToLower stdin_ReadString json_Unmarshal_object
     DefaultSelector DefaultOperator flags).
Local Abbreviation run_preview :=
  (runPreview Time_zero time_Parse_RFC3339 Time_IsZero Time_Format os_Getenv
     json_Unmarshal_object DefaultSelector DefaultOperator flags).
Local Abbreviation run_list :=
  (cmd_list.runList Time_zero time_Parse_RFC3339 Time_IsZero Time_Format
     os_Getenv DefaultSelector flags listLimit tabwriter_format).
Local Abbreviation find version stack :=
  (history.GetUpdateByVersion Time_zero time_Parse_RFC3339 DefaultSelector
     (getProjectPath flags) stack version).
Local Abbreviation latest_of stack :=
  (history.GetLatestVersion Time_zero time_Parse_RFC3339 DefaultSelector
     (getProjectPath flags) stack).
Local Abbreviation fetch stack :=
  (history.GetStackHistory Time_zero time_Parse_RFC3339 DefaultSelector
     (getProjectPath flags) stack).

(** X16. Without a stack name (no flag, no environment variable) the
    commands [to], [preview] and [list] return the error at once: nothing is
    printed and the backend is not contacted. *)
Theorem commands_need_a_stack_name (w : W) (err : error) :
  getStackName os_Getenv flags = Err err ->
  run_to w = {| outcome := Some err; final := w; calls := [] |}
  /\ run_preview w = {| outcome := Some err; final := w; calls := [] |}
  /\ run_list w = {| outcome := Some err; final := w; calls := [] |}.
Proof.
  intros Hname. unfold runRollback, runPreview, cmd_list.runList.
  rewrite Hname. repeat split.
Qed.

(** X17. When the requested version is not found (or the history cannot be
    fetched), the command [to] returns that error wrapped with the version
    asked for, after the one history fetch: nothing is printed and the
    latest version is not fetched. *)
Theorem runRollback_unknown_version (w : W) (stack : string) (err : error) :
  let version := rollbackVersion flags in
  let found := find version stack w in
  let r := run_to w in
  getStackName os_Getenv flags = Ok stack ->
  outcome found = Err err ->
  outcome r
  = Some (wrapError (("failed to find version " +:+ itoa version +:+ ": ")
                     +:+ Error err) err)
  /\ calls r = calls found
  /\ final r = final found.
Proof.
  intros version found r Hname Hfound. subst r.
  unfold runRollback. rewrite Hname. fold version.
  rewrite bind_outcome, bind_calls, bind_final. fold found. rewrite Hfound.
  cbn [ret outcome calls final]. rewrite app_nil_r. repeat split.
Qed.

Lemma printUpdate_run (update : history.UpdateInfo Time) (w : W) :
  final (printUpdate Time_IsZero Time_Format update w) = w
  /\ silent (calls (printUpdate Time_IsZero Time_Format update w)) = [].
Proof.
  unfold printUpdate.
  destruct (negb (String.eqb (history.Message update) EmptyString));
    split; reflexivity.
Qed.

Lemma printChanges_run (changes : gomap) (w : W) :
  final (printChanges changes w) = w
  /\ silent (calls (printChanges changes w)) = [].
Proof.
  unfold printChanges.
  induction (map_to_list changes) as [|[change n] l [IHf IHc]];
    cbn [fold_right]; [split; reflexivity|].
  rewrite bind_final, bind_calls. cbn [fmt_Print fmt_Fprintf emit final outcome calls].
  split; [exact IHf|]. exact IHc.
Qed.

Lemma silent_app (t1 t2 : list Event) : silent (t1 ++ t2) = silent t1 ++ silent t2.
Proof. apply List.filter_app. Qed.


(** The history fetches leave nothing but the selection and the listing. *)
Lemma fetch_log projectPath stackName (w : W) :
  let t := calls (history.GetStackHistoryWithSelector Time_zero time_Parse_RFC3339
                    projectPath stackName DefaultSelector w) in
  List.filter mutating t = [] /\ List.filter is_Refresh_or_Up t = []
  /\ exports t = [] /\ imports t = [] /\ silent t = t.
Proof.
  cbv zeta.
  destruct (cmd_properties.GetStackHistoryWithSelector_calls Time_zero
              time_Parse_RFC3339 projectPath stackName DefaultSelector w)
    as [[e ->]|[h ->]]; repeat split.
Qed.

Lemma find_log version stack (w : W) :
  let t := calls (find version stack w) in
  List.filter mutating t = [] /\ List.filter is_Refresh_or_Up t = []
  /\ exports t = [] /\ imports t = [] /\ silent t = t.
Proof.
  cbv zeta.
  unfold history.GetUpdateByVersion, history.GetUpdateByVersionWithSelector.
  rewrite bind_calls.
  destruct (outcome (history.GetStackHistoryWithSelector _ _ _ _ _ w));
    cbn [ret calls]; rewrite app_nil_r; apply fetch_log.
Qed.

Lemma latest_log stack (w : W) :
  let t := calls (latest_of stack w) in
  List.filter mutating t = [] /\ List.filter is_Refresh_or_Up t = []
  /\ exports t = [] /\ imports t = [] /\ silent t = t.
Proof.
  cbv zeta.
  unfold history.GetLatestVersion, history.GetLatestVersionWithSelector.
  rewrite bind_calls.
  destruct (outcome (history.GetStackHistoryWithSelector _ _ _ _ _ w));
    cbn [ret calls]; rewrite app_nil_r; apply fetch_log.
Qed.


(** The command [to --yes] past its checks. *)
Lemma runRollback_yes_run (w : W) (stack : string)
  (update : history.UpdateInfo Time) (latest : Z) :
  let version := rollbackVersion flags in
  let found := find version stack w in
  let fetched := latest_of stack (final found) in
  let opts :=
    {| rollback.ProjectPath := getProjectPath flags;
       rollback.StackName := stack;
       rollback.TargetVersion := version;
       rollback.DryRun := false;
       rollback.Verbose := isVerbose flags;
       rollback.Output := Some os_Stdout;
       rollback.Operator := None |} in
  let exec :=
    rollback.ExecuteRollback json_Unmarshal_object DefaultOperator opts
      (final fetched) in
  let r := run_to w in
  getStackName os_Getenv flags = Ok stack ->
  outcome found = Ok update ->
  outcome fetched = Ok latest ->
  version <> latest ->
  skipConfirm flags = true ->
  outcome r
  = match outcome exec with
    | Ok _ => None
    | Err err => Some (wrapError ("rollback failed: " +:+ Error err) err)
    end
  /\ silent (calls r) = calls found ++ calls fetched ++ silent (calls exec)
  /\ final r = final exec.
Proof.
  intros version found fetched opts exec r Hname Hfound Hlatest Hne Hskip.
  subst r. unfold runRollback. rewrite Hname. fold version.
  rewrite bind_outcome, bind_calls, bind_final. fold found. rewrite Hfound.
  rewrite bind_outcome, bind_calls, bind_final. fold fetched. rewrite Hlatest.
  rewrite (proj2 (Z.eqb_neq _ _) Hne), Hskip.
  destruct (find_log version stack w) as (_ & _ & _ & _ & Hs1).
  destruct (latest_log stack (final found)) as (_ & _ & _ & _ & Hs2).
  fold found in Hs1. fold fetched in Hs2.
  unfold printUpdate.
  destruct (negb (String.eqb (history.Message update) EmptyString)).
  all: cbn [bind outcome final calls fmt_Print fmt_Fprintf emit ret call app negb].
  all: fold opts; fold exec.
  all: destruct (outcome exec) as [result|err].
  all: cbn [bind outcome final calls fmt_Print fmt_Fprintf emit ret call app negb].
  all: try (destruct (bool_decide (rollback.ResourceChanges result = ∅));
            cbn [bind outcome final calls fmt_Print fmt_Fprintf emit ret call app]).
  all: try (destruct (printChanges_run (rollback.ResourceChanges result) (final exec))
              as [Hpf Hpc]).
  all: rewrite ?Hpf.
  all: rewrite !silent_app, Hs1, Hs2.
  all: cbn [silent List.filter is_Fprintf negb app].
  all: rewrite ?silent_app, ?Hpc.
  all: cbn [silent List.filter is_Fprintf negb app].
  all: unfold silent in *; rewrite ?Hpc, ?app_nil_r.
  all: repeat split.
  all: try (match goal with
            | H : List.filter _ (calls (printChanges _ _)) = [] |- _ => rewrite H
            end).
  all: rewrite ?app_nil_r; reflexivity.
Qed.

(** X19. With [--yes], a version found and different from the latest, the
    command [to] reads nothing from the terminal and runs [ExecuteRollback]
    on the standard output with no operator given; its calls are those of
    the two fetches and of that run, and a failure of the run is returned
    wrapped as a failed rollback, so that a failed [Up] is reported as
    [rollback failed: rollback failed: ...]. *)
Theorem runRollback_yes_runs_ExecuteRollback (w : W) (stack : string)
  (update : history.UpdateInfo Time) (latest : Z) :
  let version := rollbackVersion flags in
  let found := find version stack w in
  let fetched := latest_of stack (final found) in
  let opts :=
    {| rollback.ProjectPath := getProjectPath flags;
       rollback.StackName := stack;
       rollback.TargetVersion := version;
       rollback.DryRun := false;
       rollback.Verbose := isVerbose flags;
       rollback.Output := Some os_Stdout;
       rollback.Operator := None |} in
  let exec :=
    rollback.ExecuteRollback json_Unmarshal_object DefaultOperator opts
      (final fetched) in
  let r := run_to w in
  getStackName os_Getenv flags = Ok stack ->
  outcome found = Ok update ->
  outcome fetched = Ok latest ->
  version <> latest ->
  skipConfirm flags = true ->
  outcome r
  = match outcome exec with
    | Ok _ => None
    | Err err => Some (wrapError ("rollback failed: " +:+ Error err) err)
    end
  /\ silent (calls r) = calls found ++ calls fetched ++ silent (calls exec)
  /\ final r = final exec
  /\ (forall o e,
        In (CallUp o (Err e)) (calls exec) ->
        Error <$> outcome r
        = Some ("rollback failed: " +:+ "rollback failed: " +:+ Error e)).
Proof.
  intros version found fetched opts exec r Hname Hfound Hlatest Hne Hskip.
  destruct (runRollback_yes_run w stack update latest Hname Hfound Hlatest Hne Hskip)
    as (Ho & Hs & Hf).
  fold version found fetched opts exec r in Ho, Hs, Hf.
  repeat split; [exact Ho | exact Hs | exact Hf |].
  intros o e Hin. rewrite Ho.
  pose proof (rollback_more.execute_flow_up_failure json_Unmarshal_object
                DefaultOperator opts (final fetched) o e Hin) as Hup.
  cbv zeta in Hup. fold exec in Hup. rewrite Hup. reflexivity.
Qed.

(** The command [preview] past its checks. *)
Lemma runPreview_run (w : W) (stack : string)
  (update : history.UpdateInfo Time) (latest : Z) :
  let version := previewVersion flags in
  let found := find version stack w in
  let fetched := latest_of stack (final found) in
  let opts :=
    {| rollback.ProjectPath := getProjectPath flags;
       rollback.StackName := stack;
       rollback.TargetVersion := version;
       rollback.DryRun := true;
       rollback.Verbose := isVerbose flags;
       rollback.Output := Some os_Stdout;
       rollback.Operator := None |} in
  let previewed :=
    rollback.PreviewRollback json_Unmarshal_object DefaultOperator opts
      (final fetched) in
  let r := run_preview w in
  getStackName os_Getenv flags = Ok stack ->
  outcome found = Ok update ->
  outcome fetched = Ok latest ->
  version <> latest ->
  outcome r
  = match outcome previewed with
    | Ok _ => None
    | Err err => Some (wrapError ("preview failed: " +:+ Error err) err)
    end
  /\ silent (calls r) = calls found ++ calls fetched ++ silent (calls previewed)
  /\ final r = final previewed.
Proof.
  intros version found fetched opts previewed r Hname Hfound Hlatest Hne.
  subst r. unfold runPreview. rewrite Hname. fold version.
  rewrite bind_outcome, bind_calls, bind_final. fold found. rewrite Hfound.
  rewrite bind_outcome, bind_calls, bind_final. fold fetched. rewrite Hlatest.
  rewrite (proj2 (Z.eqb_neq _ _) Hne).
  destruct (find_log version stack w) as (_ & _ & _ & _ & Hs1).
  destruct (latest_log stack (final found)) as (_ & _ & _ & _ & Hs2).
  fold found in Hs1. fold fetched in Hs2.
  unfold printUpdate.
  destruct (negb (String.eqb (history.Message update) EmptyString)).
  all: cbn [bind outcome final calls fmt_Print fmt_Fprintf emit ret call app negb].
  all: fold opts; fold previewed.
  all: destruct (outcome previewed) as [result|err].
  all: cbn [bind outcome final calls fmt_Print fmt_Fprintf emit ret call app negb].
  all: try (destruct (bool_decide (rollback.ResourceChanges result = ∅));
            cbn [bind outcome final calls fmt_Print fmt_Fprintf emit ret call app]).
  all: try (destruct (printChanges_run (rollback.ResourceChanges result)
                        (final previewed)) as [Hpf Hpc]).
  all: rewrite ?Hpf.
  all: unfold silent in *.
  all: repeat first
         [ rewrite List.filter_app
         | progress cbn [List.filter is_Fprintf negb app]
         | match goal with
           | H : List.filter _ (calls (printChanges _ _)) = [] |- _ => rewrite H
           end ].
  all: rewrite Hs1, Hs2, ?app_nil_r; repeat split.
Qed.

(** X20. For a version found and different from the latest, the command
    [preview] runs [PreviewRollback] on the standard output with no operator
    given; its calls are those of the two fetches and of that run, and a
    failure of the run is returned wrapped as a failed preview, so that a
    failed [Preview] is reported as [preview failed: preview failed: ...]. *)
Theorem runPreview_runs_PreviewRollback (w : W) (stack : string)
  (update : history.UpdateInfo Time) (latest : Z) :
  let version := previewVersion flags in
  let found := find version stack w in
  let fetched := latest_of stack (final found) in
  let opts :=
    {| rollback.ProjectPath := getProjectPath flags;
       rollback.StackName := stack;
       rollback.TargetVersion := version;
       rollback.DryRun := true;
       rollback.Verbose := isVerbose flags;
       rollback.Output := Some os_Stdout;
       rollback.Operator := None |} in
  let previewed :=
    rollback.PreviewRollback json_Unmarshal_object DefaultOperator opts
      (final fetched) in
  let r := run_preview w in
  getStackName os_Getenv flags = Ok stack ->
  outcome found = Ok update ->
  outcome fetched = Ok latest ->
  version <> latest ->
  outcome r
  = match outcome previewed with
    | Ok _ => None
    | Err err => Some (wrapError ("preview failed: " +:+ Error err) err)
    end
  /\ silent (calls r) = calls found ++ calls fetched ++ silent (calls previewed)
  /\ final r = final previewed
  /\ (forall o e,
        In (CallPreview o (Err e)) (calls previewed) ->
        Error <$> outcome r
        = Some ("preview failed: " +:+ "preview failed: " +:+ Error e)).
Proof.
  intros version found fetched opts previewed r Hname Hfound Hlatest Hne.
  destruct (runPreview_run w stack update latest Hname Hfound Hlatest Hne)
    as (Ho & Hs & Hf).
  fold version found fetched opts previewed r in Ho, Hs, Hf.
  repeat split; [exact Ho | exact Hs | exact Hf |].
  intros o e Hin. rewrite Ho.
  pose proof (rollback_more.preview_flow_preview_failure json_Unmarshal_object
                DefaultOperator opts (final fetched) o e Hin) as Hpv.
  cbv zeta in Hpv. fold previewed in Hpv. rewrite Hpv. reflexivity.
Qed.

(** X21. When the version asked for is found and is the latest, the command
    [preview] prints the warning that no rollback is needed and returns no
    error; after the two history fetches nothing else happens. *)
Theorem runPreview_of_latest_is_a_noop (w : W) (stack : string)
  (update : history.UpdateInfo Time) :
  let version := previewVersion flags in
  let found := find version stack w in
  let fetched := latest_of stack (final found) in
  let r := run_preview w in
  getStackName os_Getenv flags = Ok stack ->
  outcome found = Ok update ->
  outcome fetched = Ok version ->
  outcome r = None
  /\ calls r
     = calls found ++ calls fetched
       ++ [Fprintf os_Stdout
             ("Warning: Version " +:+ itoa version
              +:+ " is the current version. No rollback needed." +:+ LF)]
  /\ List.filter mutating (calls r) = []
  /\ final r = final fetched.
Proof.
  intros version found fetched r Hname Hfound Hlatest.
  subst r. unfold runPreview. rewrite Hname. fold version.
  rewrite bind_outcome, bind_calls, bind_final. fold found. rewrite Hfound.
  rewrite bind_outcome, bind_calls, bind_final. fold fetched. rewrite Hlatest.
  rewrite Z.eqb_refl.
  destruct (find_log version stack w) as (Hm1 & _).
  destruct (latest_log stack (final found)) as (Hm2 & _).
  fold found in Hm1. fold fetched in Hm2.
  split; [reflexivity|]. split; [reflexivity|]. split; [|reflexivity].
  cbn [bind outcome final calls fmt_Print fmt_Fprintf emit ret app].
  now rewrite !mutating_app, Hm1, Hm2.
Qed.


(** X23. The updates listed under [--limit] are a prefix of the history: the
    first [listLimit] of them when the limit is positive and below the
    length of the history, all of them otherwise; a non-empty history is
    never listed as empty. *)
Theorem limited_is_a_prefix (updates : list (history.UpdateInfo Time)) :
  let n := Z.of_nat (length updates) in
  cmd_list.limited listLimit updates `prefix_of` updates
  /\ Z.of_nat (length (cmd_list.limited listLimit updates))
     = (if (0 <? listLimit) && (listLimit <? n) then listLimit else n)
  /\ (updates <> [] -> cmd_list.limited listLimit updates <> []).
Proof.
  intros n. unfold cmd_list.limited. fold n.
  destruct (Z.ltb_spec 0 listLimit) as [Hpos|Hnp]; cbn [andb];
    [destruct (Z.ltb_spec listLimit n) as [Hlt|Hge]|].
  - split; [apply prefix_take|]. split.
    + rewrite length_take. lia.
    + intros _ Hnil. apply (f_equal length) in Hnil.
      rewrite length_take in Hnil. cbn in Hnil. lia.
  - repeat split; auto.
  - repeat split; auto.
Qed.

(** X24. With a stack name, the command [list] fetches the history once
    and nothing else reaches the backend.  A failed fetch is returned
    wrapped; an empty history prints that none was found; otherwise the
    table of the listed updates is printed, and the total printed after it
    is the number of updates listed, not the length of the history. *)
Theorem runList_run (w : W) (stack : string) :
  let fetched := fetch stack w in
  let r := run_list w in
  let announced :=
    if isVerbose flags
    then [Fprintf os_Stdout
            ("Fetching history for stack " +:+ stack +:+ " in "
             +:+ getProjectPath flags +:+ "..." +:+ LF)]
    else [] in
  getStackName os_Getenv flags = Ok stack ->
  match outcome fetched with
  | Err err =>
      outcome r
      = Some (wrapError ("failed to get stack history: " +:+ Error err) err)
      /\ calls r = announced ++ calls fetched
  | Ok [] =>
      outcome r = None
      /\ calls r
         = announced ++ calls fetched
           ++ [Fprintf os_Stdout ("No deployment history found for this stack." +:+ LF)]
  | Ok updates =>
      let listed := cmd_list.limited listLimit updates in
      outcome r = None
      /\ calls r
         = announced ++ calls fetched
           ++ [Fprintf os_Stdout
                 (tabwriter_format
                    (cmd_list.table Time_IsZero Time_Format listed));
               Fprintf os_Stdout
                 (LF +:+ "Total: " +:+ itoa (Z.of_nat (length listed))
                  +:+ " deployment(s)" +:+ LF);
               Fprintf os_Stdout
                 (LF +:+ "Use 'pulumi-rollback preview --stack <stack> --version <n>' to preview a rollback"
                  +:+ LF)]
  end
  /\ final r = final fetched
  /\ List.filter mutating (calls r) = []
  /\ silent (calls r) = calls fetched.
Proof.
  intros fetched r announced Hname. subst r.
  unfold cmd_list.runList. rewrite Hname.
  destruct (fetch_log (getProjectPath flags) stack w) as (Hm & _ & _ & _ & Hs).
  change (history.GetStackHistoryWithSelector Time_zero time_Parse_RFC3339
            (getProjectPath flags) stack DefaultSelector w) with fetched in Hm, Hs.
  subst announced.
  destruct (isVerbose flags).
  all: rewrite bind_outcome, bind_calls, bind_final.
  all: cbn [fmt_Fprintf emit ret outcome final calls].
  all: rewrite bind_outcome, bind_calls, bind_final; fold fetched.
  all: destruct (outcome fetched) as [[|u updates]|err].
  all: cbn [length Nat.eqb bind fmt_Fprintf emit ret outcome final calls app].
  all: rewrite ?app_nil_r.
  all: unfold silent in *.
  all: repeat first
         [ rewrite List.filter_app
         | progress cbn [List.filter is_Fprintf mutating negb app] ].
  all: rewrite Hm, Hs, ?app_nil_r.
  all: repeat split.
Qed.

End Commands.

Lemma commands_need_a_stack_name_witness :
  calls (mock_more.to_on "y" mock.MockRollbackStack_zero
           (mock_more.flags_of EmptyString 5 true)) = []
  /\ calls (mock_more.preview_on mock.MockRollbackStack_zero
             (mock_more.flags_of EmptyString 5 true)) = []
  /\ calls (mock_more.list_on 0 (mock_more.flags_of EmptyString 5 true)) = [].
Proof.
  destruct (commands_need_a_stack_name (W := nat) (Time := string)
              EmptyString mock_more.parse_time
              (fun t => String.eqb t EmptyString) (fun t _ => t)
              (fun _ => EmptyString) (fun s => s) (fun s => s)
              (mock_more.answering "y") mock.json_Unmarshal_object
              mock.history_5_2_1
              (mock.operator_returning mock.MockRollbackStack_zero)
              (mock_more.flags_of EmptyString 5 true) 0 (fun text => text) 0%nat
              (errorString "stack name is required: use --stack flag or set PULUMI_STACK environment variable")
              eq_refl) as (Hto & Hpreview & Hlist).
  split; [exact (f_equal calls Hto)|].
  split; [exact (f_equal calls Hpreview) | exact (f_equal calls Hlist)].
Defined.

Lemma runRollback_unknown_version_witness :
  Error <$> outcome (mock_more.to_on "y" mock.MockRollbackStack_zero
                       (mock_more.flags_of "dev" 7 true))
  = Some "failed to find version 7: version 7 not found in stack history".
Proof.
  destruct (runRollback_unknown_version (W := nat) (Time := string)
              EmptyString mock_more.parse_time
              (fun t => String.eqb t EmptyString) (fun t _ => t)
              (fun _ => EmptyString) (fun s => s) (fun s => s)
              (mock_more.answering "y") mock.json_Unmarshal_object
              mock.history_5_2_1
              (mock.operator_returning mock.MockRollbackStack_zero)
              (mock_more.flags_of "dev" 7 true) 0%nat "dev"
              (errorString "version 7 not found in stack history")
              eq_refl eq_refl) as (Ho & _).
  unfold mock_more.to_on. rewrite Ho. reflexivity.
Defined.


Lemma runRollback_yes_runs_ExecuteRollback_witness :
  outcome (mock_more.to_on EmptyString mock_more.success_stack
             (mock_more.flags_of "dev" 1 true)) = None.
Proof.
  assert (Hne : 1 <> 5) by discriminate.
  destruct (runRollback_yes_runs_ExecuteRollback (W := nat) (Time := string)
              EmptyString mock_more.parse_time
              (fun t => String.eqb t EmptyString) (fun t _ => t)
              (fun _ => EmptyString) (fun s => s) (fun s => s)
              (mock_more.answering EmptyString) mock.json_Unmarshal_object
              mock.history_5_2_1
              (mock.operator_returning mock_more.success_stack)
              (mock_more.flags_of "dev" 1 true) 0%nat "dev"
              (mock_more.info 1) 5 eq_refl eq_refl eq_refl Hne eq_refl)
    as (Ho & _).
  unfold mock_more.to_on. rewrite Ho. reflexivity.
Defined.

Lemma runPreview_runs_PreviewRollback_witness :
  outcome (mock_more.preview_on mock.restore_error_stack
             (mock_more.flags_of "dev" 1 true)) = None.
Proof.
  assert (Hne : 1 <> 5) by discriminate.
  destruct (runPreview_runs_PreviewRollback (W := nat) (Time := string)
              EmptyString mock_more.parse_time
              (fun t => String.eqb t EmptyString) (fun t _ => t)
              (fun _ => EmptyString) mock.json_Unmarshal_object
              mock.history_5_2_1
              (mock.operator_returning mock.restore_error_stack)
              (mock_more.flags_of "dev" 1 true) 0%nat "dev"
              (mock_more.info 1) 5 eq_refl eq_refl eq_refl Hne)
    as (Ho & _).
  unfold mock_more.preview_on. rewrite Ho. reflexivity.
Defined.

Lemma runPreview_of_latest_is_a_noop_witness :
  outcome (mock_more.preview_on mock.MockRollbackStack_zero
             (mock_more.flags_of "dev" 5 true)) = None
  /\ List.filter mutating
       (calls (mock_more.preview_on mock.MockRollbackStack_zero
                 (mock_more.flags_of "dev" 5 true))) = [].
Proof.
  destruct (runPreview_of_latest_is_a_noop (W := nat) (Time := string)
              EmptyString mock_more.parse_time
              (fun t => String.eqb t EmptyString) (fun t _ => t)
              (fun _ => EmptyString) mock.json_Unmarshal_object
              mock.history_5_2_1
              (mock.operator_returning mock.MockRollbackStack_zero)
              (mock_more.flags_of "dev" 5 true) 0%nat "dev"
              (mock_more.info 5) eq_refl eq_refl eq_refl)
    as (Ho & _ & Hm & _).
  split; [exact Ho | exact Hm].
Defined.

Lemma runList_run_witness :
  silent (calls (mock_more.list_on 2 (mock_more.flags_of "dev" 0 true)))
  = [CallSelectStack "dev" "." None;
     CallHistory 0 0 (Ok [mock.version 5; mock.version 2; mock.version 1])]
  /\ List.filter mutating
       (calls (mock_more.list_on 2 (mock_more.flags_of "dev" 0 true))) = [].
Proof.
  destruct (runList_run (W := nat) (Time := string)
              EmptyString mock_more.parse_time
              (fun t => String.eqb t EmptyString) (fun t _ => t)
              (fun _ => EmptyString) mock.history_5_2_1
              (mock_more.flags_of "dev" 0 true) 2 (fun text => text) 0%nat "dev"
              eq_refl) as (_ & _ & Hm & Hs).
  split; [exact Hs | exact Hm].
Defined.

(** The messages of the commands on the mocks: the total of a limited
    list, and the doubled prefixes of the failures. *)
Example messages_of_the_commands :
  In (Fprintf os_Stdout (LF +:+ "Total: 2 deployment(s)" +:+ LF))
     (calls (mock_more.list_on 2 (mock_more.flags_of "dev" 0 true)))
  /\ Error <$> outcome (mock_more.to_on EmptyString mock.up_error_stack
                          (mock_more.flags_of "dev" 1 true))
     = Some "rollback failed: rollback failed: up failed"
  /\ Error <$> outcome (mock_more.preview_on mock.preview_error_stack
                          (mock_more.flags_of "dev" 1 true))
     = Some "preview failed: preview failed: preview failed".
Proof.
  split; [apply (nth_error_In _ 3%nat); reflexivity|].
  split; reflexivity.
Qed.

End commands.
